(** * Crypto-Prices: aggregation statistics, CSV rows and Telegram alert rules

    A shallow embedding of the price-comparison tool
    ([crypto_price_checker.py], [crypto_price_cli.py]) and of the alert bot
    ([telegram_alerts.py]).

    Modelling conventions.
    - Python [float] values (prices, percentages, [time.time()] readings) are
      exact rationals [Q]; rounding, infinities and NaN are not modelled.
      Equalities between computed numbers are therefore stated with [==].
    - Python [int] configuration values (cooldown, window, status interval)
      are [Z] and enter the arithmetic through [inject_Z].
    - A [dict] whose iteration order matters (the provider -> price mapping)
      is an association list in insertion order; the static symbol tables,
      only ever read with [.get], are [gmap]s.
    - Exceptions are values of [Exn]; a computation that may raise returns a
      [result].  Functions that mutate the alert state or talk to Telegram
      live in the state-and-exception monad [M]: as in Python, mutations made
      before an exception is raised stay visible afterwards.
    - The clock is an explicit argument [now] at every place where the source
      calls [time.time()]. *)

From Stdlib Require Import QArith Qabs Lqa ZArith Lia Ascii String.
From stdpp Require Import base option list strings gmap sorting.

Local Open Scope Q_scope.

(** ** Numbers *)

Definition Qltb (x y : Q) : bool := negb (Qle_bool y x).

(** Python truthiness of a float: everything but zero. *)
Definition truthy (x : Q) : bool := negb (Qeq_bool x 0).

(** ** Exceptions *)

Inductive Exn : Type :=
| ZeroDivisionError
| StatisticsError
| ValueError
| IndexError.

Inductive result (A : Type) : Type :=
| Ok (a : A)
| Raise (e : Exn).
Arguments Ok {A} a.
Arguments Raise {A} e.

#[global] Instance result_ret : MRet result := @Ok.
#[global] Instance result_bind : MBind result := λ A B f m,
  match m with
  | Ok a => f a
  | Raise e => Raise e
  end.

(** [x / y] on floats. *)
Definition py_div (x y : Q) : result Q :=
  if Qeq_bool y 0 then Raise ZeroDivisionError else Ok (x / y).

(** One step of [max] and of [min]: the running extremum [x] is replaced only
    by a strictly greater (smaller) item [y]. *)
Definition Qmax (x y : Q) : Q := if Qltb x y then y else x.
Definition Qmin (x y : Q) : Q := if Qltb y x then y else x.

(** [max(l)] and [min(l)]: [ValueError] on the empty list. *)
Definition py_max (l : list Q) : result Q :=
  match l with
  | [] => Raise ValueError
  | x :: xs => Ok (foldl Qmax x xs)
  end.

Definition py_min (l : list Q) : result Q :=
  match l with
  | [] => Raise ValueError
  | x :: xs => Ok (foldl Qmin x xs)
  end.

Definition Qsum (l : list Q) : Q := foldr Qplus 0 l.

(** [statistics.mean]: [StatisticsError] on the empty list. *)
Definition mean (l : list Q) : result Q :=
  match l with
  | [] => Raise StatisticsError
  | _ :: _ => Ok (Qsum l / inject_Z (Z.of_nat (length l)))
  end.

(** ** Provider results *)

(** [Dict[str, Optional[float]]], in insertion order. *)
Definition Prices : Type := list (string * option Q).

(** [[p for p in prices.values() if p is not None]] *)
Definition valid_values (prices : Prices) : list Q :=
  omap snd prices.

(** [{k: v for k, v in prices.items() if v is not None}] *)
Definition valid_items (prices : Prices) : list (string * Q) :=
  omap (λ kv, match kv.2 with Some v => Some (kv.1, v) | None => None end) prices.

(** [d[k] = v]: an existing key keeps its place, a new key goes last. *)
Fixpoint dict_set (d : Prices) (k : string) (v : option Q) : Prices :=
  match d with
  | [] => [(k, v)]
  | (k', v') :: rest =>
      if String.eqb k' k then (k', v) :: rest else (k', v') :: dict_set rest k v
  end.

(** ** Strings *)

Definition ascii_lower (c : ascii) : ascii :=
  let n := N_of_ascii c in
  if (65 <=? n)%N && (n <=? 90)%N then ascii_of_N (n + 32) else c.

Definition ascii_upper (c : ascii) : ascii :=
  let n := N_of_ascii c in
  if (97 <=? n)%N && (n <=? 122)%N then ascii_of_N (n - 32) else c.

(** [str.lower()] and [str.upper()], on ASCII text. *)
Fixpoint lower (s : string) : string :=
  match s with
  | EmptyString => EmptyString
  | String c s' => String (ascii_lower c) (lower s')
  end.

Fixpoint upper (s : string) : string :=
  match s with
  | EmptyString => EmptyString
  | String c s' => String (ascii_upper c) (upper s')
  end.

(** [str.capitalize()] *)
Definition capitalize (s : string) : string :=
  match s with
  | EmptyString => EmptyString
  | String c s' => String (ascii_upper c) (lower s')
  end.

(** * crypto_price_checker.py *)

Module Checker.

(** ** Symbol tables *)

Definition COINGECKO_SYMBOL_MAP : gmap string string :=
  list_to_map
    [("btc", "bitcoin"); ("eth", "ethereum"); ("sol", "solana");
     ("ada", "cardano"); ("xrp", "ripple"); ("doge", "dogecoin");
     ("dot", "polkadot"); ("matic", "polygon"); ("link", "chainlink");
     ("avax", "avalanche-2"); ("ltc", "litecoin"); ("uni", "uniswap");
     ("atom", "cosmos"); ("xlm", "stellar"); ("algo", "algorand");
     ("near", "near"); ("ftm", "fantom"); ("aave", "aave");
     ("bnb", "binancecoin"); ("shib", "shiba-inu")]%string.

Definition BINANCE_QUOTE_MAP : gmap string string :=
  list_to_map
    [("usd", "USDT"); ("eur", "EUR"); ("gbp", "GBP");
     ("usdt", "USDT"); ("usdc", "USDC"); ("busd", "BUSD")]%string.

Definition COINBASE_QUOTE_MAP : gmap string string :=
  list_to_map
    [("usd", "USD"); ("eur", "EUR"); ("gbp", "GBP");
     ("usdt", "USDT"); ("usdc", "USDC")]%string.

(** ** Provider adapters

    The network is a section variable: [make_request url] is the parsed JSON
    answer, or [None] after any failure.  Answers are typed by the shape each
    adapter reads: CoinGecko nests [coin_id -> currency -> price]; Binance
    answers with a flat object of strings, whose ["price"] field goes through
    [float()]. *)

Section Adapters.
Variable coingecko_request : string → option (gmap string (gmap string Q)).
Variable binance_request : string → option (gmap string string).
(** [float(s)]: [None] stands for [ValueError]. *)
Variable float_of_string : string → option Q.

(** The identifier sent to CoinGecko. *)
Definition coingecko_coin_id (symbol : string) : string :=
  default (lower symbol) (COINGECKO_SYMBOL_MAP !! lower symbol).

Definition coingecko_url (symbol base_currency : string) : string :=
  ("https://api.coingecko.com/api/v3/simple/price?ids="
     +:+ coingecko_coin_id symbol
     +:+ "&vs_currencies=" +:+ lower base_currency)%string.

Definition fetch_coingecko (symbol base_currency : string)
  : option Q * string :=
  let provider := "CoinGecko"%string in
  let coin_id := coingecko_coin_id symbol in
  let currency := lower base_currency in
  let url := coingecko_url symbol base_currency in
  match coingecko_request url with
  | Some data =>
      match data !! coin_id with
      | Some entry =>
          match entry !! currency with
          | Some price => (Some price, provider)
          | None => (None, provider)
          end
      | None => (None, provider)
      end
  | None => (None, provider)
  end.

(** The quote suffix of the Binance pair. *)
Definition binance_quote (base_currency : string) : string :=
  default "USDT"%string (BINANCE_QUOTE_MAP !! lower base_currency).

Definition binance_pair (symbol base_currency : string) : string :=
  (upper symbol +:+ binance_quote base_currency)%string.

Definition binance_url (symbol base_currency : string) : string :=
  ("https://api.binance.com/api/v3/ticker/price?symbol="
     +:+ binance_pair symbol base_currency)%string.

Definition fetch_binance (symbol base_currency : string)
  : option Q * string :=
  let provider := "Binance"%string in
  match binance_request (binance_url symbol base_currency) with
  | Some data =>
      match data !! "price"%string with
      | Some s =>
          match float_of_string s with
          | Some price => (Some price, provider)
          | None => (None, provider)
          end
      | None => (None, provider)
      end
  | None => (None, provider)
  end.
End Adapters.

(** ** Display *)

Inductive DisplayLine : Type :=
| Header (symbol base_currency timestamp : string)
| ProviderPrice (provider : string) (price : Q)
| ProviderUnavailable (provider : string)
| AverageLine (n : nat) (avg_price : Q)
| SpreadLine (spread spread_pct : Q)
| OnlyOneProvider
| NoValidPrices.

Definition provider_line (kv : string * option Q) : DisplayLine :=
  match kv.2 with
  | Some price => ProviderPrice kv.1 price
  | None => ProviderUnavailable kv.1
  end.

(** The statistics block of [display_results], for two or more prices. *)
Definition display_stats (valid_prices : list Q) : result (Q * Q * Q) :=
  avg_price ← mean valid_prices;
  hi ← py_max valid_prices;
  lo ← py_min valid_prices;
  let spread := hi - lo in
  spread_pct ← (if Qltb 0 avg_price
                then q ← py_div spread avg_price; mret (q * 100)
                else mret 0);
  mret (avg_price, spread, spread_pct).

Definition display_results (symbol base_currency : string) (prices : Prices)
    (timestamp : string) : result (list DisplayLine) :=
  let head := Header (upper symbol) (upper base_currency) timestamp in
  let valid_prices := valid_values prices in
  let body := provider_line <$> prices in
  if (2 <=? length valid_prices)%nat then
    '(avg_price, spread, spread_pct) ← display_stats valid_prices;
    mret (head :: body ++
            [AverageLine (length valid_prices) avg_price;
             SpreadLine spread spread_pct])
  else if (length valid_prices =? 1)%nat then
    mret (head :: body ++ [OnlyOneProvider])
  else
    mret (head :: body ++ [NoValidPrices]).

(** ** CSV logging *)

Inductive Cell : Type :=
| Text (s : string)
| Float (x : Q)
| Fixed (digits : nat) (x : Q).

(** The empty string written for an unavailable value. *)
Definition blank : Cell := Text "".

Definition Row : Type := list Cell.
Definition CsvFile : Type := list Row.

(** The inner loop: first entry whose name matches case-insensitively. *)
Fixpoint find_price (prices : Prices) (provider : string) : option Q :=
  match prices with
  | [] => None
  | (p_name, p_value) :: rest =>
      if String.eqb (lower p_name) (lower provider) then p_value
      else find_price rest provider
  end.

Definition price_cell (price : option Q) : Cell :=
  match price with
  | Some p => Float p
  | None => blank
  end.

(** [f"{x:.Nf}" if x else ''] *)
Definition stat_cell (digits : nat) (x : option Q) : Cell :=
  match x with
  | Some v => if truthy v then Fixed digits v else blank
  | None => blank
  end.

(** The three statistics of [append_to_csv]. *)
Definition csv_stats (valid_prices : list Q)
    : result (option Q * option Q * option Q) :=
  avg_price ← (match valid_prices with
               | [] => Ok None
               | _ :: _ => a ← mean valid_prices; Ok (Some a)
               end);
  spread ← (if (2 <=? length valid_prices)%nat
            then hi ← py_max valid_prices;
                 lo ← py_min valid_prices;
                 Ok (Some (hi - lo))
            else Ok None);
  spread_pct ← (match spread, avg_price with
                | Some s, Some a =>
                    if truthy s && truthy a
                    then q ← py_div s a; Ok (Some (q * 100))
                    else Ok None
                | _, _ => Ok None
                end);
  Ok (avg_price, spread, spread_pct).

Definition csv_row (timestamp symbol base_currency : string) (prices : Prices)
    (providers : list string) : result Row :=
  '(avg_price, spread, spread_pct) ← csv_stats (valid_values prices);
  mret ([Text timestamp; Text (upper symbol); Text (upper base_currency)]
          ++ ((λ provider, price_cell (find_price prices provider)) <$> providers)
          ++ [stat_cell 8 avg_price; stat_cell 8 spread; stat_cell 4 spread_pct]).

Definition append_to_csv (file : CsvFile) (timestamp symbol base_currency : string)
    (prices : Prices) (providers : list string) : result CsvFile :=
  row ← csv_row timestamp symbol base_currency prices providers;
  mret (file ++ [row]).

(** ** Continuous monitoring *)

Inductive MonitorLine : Type :=
| AvgSummary (avg : Q) (n_valid n_providers : nat)
| NoDataReceived.

(** One iteration of the [while running] loop, after the prices of the cycle
    have been fetched. *)
Definition monitoring_cycle (symbol base_currency : string)
    (providers provider_names : list string) (file : CsvFile)
    (fetched : string * Prices) : result (MonitorLine * CsvFile) :=
  let '(timestamp, prices) := fetched in
  let valid_prices := valid_values prices in
  match valid_prices with
  | _ :: _ =>
      avg ← mean valid_prices;
      file' ← append_to_csv file timestamp symbol base_currency prices provider_names;
      mret (AvgSummary avg (length valid_prices) (length providers), file')
  | [] => mret (NoDataReceived, file)
  end.

Definition provider_display_name (p : string) : string :=
  if String.eqb p "coingecko" then "CoinGecko"%string else capitalize p.

(** The loop of [run_continuous_monitoring], run over the cycles that happen
    before the stop signal; the CSV file is threaded through. *)
Fixpoint monitoring_loop (symbol base_currency : string)
    (providers provider_names : list string) (file : CsvFile)
    (cycles : list (string * Prices)) : result (list MonitorLine * CsvFile) :=
  match cycles with
  | [] => mret ([], file)
  | c :: rest =>
      '(line, file1) ← monitoring_cycle symbol base_currency providers provider_names file c;
      '(lines, file2) ← monitoring_loop symbol base_currency providers provider_names file1 rest;
      mret (line :: lines, file2)
  end.

Definition csv_header (provider_names : list string) : Row :=
  Text <$> (["timestamp"%string; "symbol"%string; "base_currency"%string]
              ++ provider_names
              ++ ["average"%string; "spread"%string; "spread_pct"%string]).

(** [init_csv_file]: the header is written only when the file does not exist. *)
Definition init_csv_file (file : option CsvFile) (provider_names : list string)
    : CsvFile :=
  match file with
  | Some rows => rows
  | None => [csv_header provider_names]
  end.

Definition run_continuous_monitoring (symbol base_currency : string)
    (providers : option (list string)) (file : option CsvFile)
    (cycles : list (string * Prices)) : result (list MonitorLine * CsvFile) :=
  let providers := default ["coingecko"; "binance"; "coinbase"]%string providers in
  let provider_names := provider_display_name <$> providers in
  monitoring_loop symbol base_currency providers provider_names
    (init_csv_file file provider_names) cycles.

(** ** The other adapters and the aggregation *)

(** The local table [kraken_symbols] of [fetch_kraken]. *)
Definition kraken_symbols : gmap string string :=
  list_to_map [("btc", "XBT"); ("doge", "XDG")]%string.

Definition coinbase_quote (base_currency : string) : string :=
  default "USD"%string (COINBASE_QUOTE_MAP !! lower base_currency).

Definition coinbase_pair (symbol base_currency : string) : string :=
  (upper symbol +:+ "-" +:+ coinbase_quote base_currency)%string.

Definition coinbase_url (symbol base_currency : string) : string :=
  ("https://api.coinbase.com/v2/prices/" +:+ coinbase_pair symbol base_currency
     +:+ "/spot")%string.

Definition kraken_quote (base_currency : string) : string :=
  if bool_decide (lower base_currency ∈ ["usd"; "usdt"]%string)
  then "USD"%string else upper base_currency.

Definition kraken_pair (symbol base_currency : string) : string :=
  (default (upper symbol) (kraken_symbols !! lower symbol)
     +:+ kraken_quote base_currency)%string.

Definition kraken_url (symbol base_currency : string) : string :=
  ("https://api.kraken.com/0/public/Ticker?pair="
     +:+ kraken_pair symbol base_currency)%string.

(** Answers are again typed by the shape the adapter reads: Coinbase nests
    [data -> amount]; Kraken answers with [result], an object whose values
    carry the last trade under ["c"], a list of strings. *)
Section Aggregation.
Variable coingecko_request : string → option (gmap string (gmap string Q)).
Variable binance_request : string → option (gmap string string).
Variable coinbase_request : string → option (gmap string (gmap string string)).
Variable kraken_request :
  string → option (gmap string (list (string * gmap string (list string)))).
Variable float_of_string : string → option Q.

Definition fetch_coinbase (symbol base_currency : string) : option Q * string :=
  let provider := "Coinbase"%string in
  match coinbase_request (coinbase_url symbol base_currency) with
  | Some data =>
      match data !! "data"%string with
      | Some inner =>
          match inner !! "amount"%string with
          | Some s =>
              match float_of_string s with
              | Some price => (Some price, provider)
              | None => (None, provider)
              end
          | None => (None, provider)
          end
      | None => (None, provider)
      end
  | None => (None, provider)
  end.

(** The loop over [data['result'].items()]: the first entry whose ["c"] has a
    first element that [float()] accepts; [ValueError] and [IndexError] move
    on to the next entry. *)
Fixpoint kraken_last_trade (items : list (string * gmap string (list string)))
    : option Q :=
  match items with
  | [] => None
  | (_, value) :: rest =>
      match value !! "c"%string with
      | Some (s :: _) =>
          match float_of_string s with
          | Some price => Some price
          | None => kraken_last_trade rest
          end
      | Some [] => kraken_last_trade rest
      | None => kraken_last_trade rest
      end
  end.

Definition fetch_kraken (symbol base_currency : string) : option Q * string :=
  let provider := "Kraken"%string in
  match kraken_request (kraken_url symbol base_currency) with
  | Some data =>
      match data !! "result"%string with
      | Some items => (kraken_last_trade items, provider)
      | None => (None, provider)
      end
  | None => (None, provider)
  end.

(** The dictionary [all_providers]. *)
Definition all_providers (name : string)
    : option (string → string → option Q * string) :=
  if String.eqb name "coingecko" then Some (fetch_coingecko coingecko_request)
  else if String.eqb name "binance"
       then Some (fetch_binance binance_request float_of_string)
  else if String.eqb name "coinbase" then Some fetch_coinbase
  else if String.eqb name "kraken" then Some fetch_kraken
  else None.

(** The loop of [fetch_all_prices]: [i] is the index of the current provider
    among the [n] requested ones, [sleeps] counts the calls of
    [time.sleep(delay)]. *)
Fixpoint fetch_loop (symbol base_currency : string) (n : nat) (delay : Q)
    (i : nat) (providers : list string) (results : Prices) (sleeps : nat)
    : Prices * nat :=
  match providers with
  | [] => (results, sleeps)
  | provider_name :: rest =>
      match all_providers (lower provider_name) with
      | Some fetch_func =>
          let '(price, name) := fetch_func symbol base_currency in
          let results := dict_set results name price in
          let sleeps := if (i <? n - 1)%nat && Qltb 0 delay
                        then S sleeps else sleeps in
          fetch_loop symbol base_currency n delay (S i) rest results sleeps
      | None =>
          fetch_loop symbol base_currency n delay (S i) rest results sleeps
      end
  end.

Definition fetch_all_prices (symbol base_currency : string)
    (providers : option (list string)) (delay : Q) : Prices * nat :=
  let providers :=
    default ["coingecko"; "binance"; "coinbase"]%string providers in
  fetch_loop symbol base_currency (length providers) delay 0 providers [] 0.
End Aggregation.

(** ** One-shot mode *)

(** [[p for p in prices.values() if p]]: zero is dropped with [None]. *)
Definition truthy_values (prices : Prices) : list Q :=
  omap (λ kv, match kv.2 with
              | Some p => if truthy p then Some p else None
              | None => None
              end) prices.

(** [any(prices.values())] *)
Definition any_price (prices : Prices) : bool :=
  existsb (λ kv, match kv.2 with
                 | Some p => truthy p
                 | None => false
                 end) prices.

(** The ['average'] entry of the JSON output of [main]. *)
Definition json_average (prices : Prices) : result (option Q) :=
  if any_price prices
  then a ← mean (truthy_values prices); Ok (Some a)
  else Ok None.

Inductive Output : Type :=
| JsonOutput (symbol base_currency timestamp : string) (prices : Prices)
    (average : option Q)
| TextOutput (lines : list DisplayLine).

(** The end of [main] in one-shot mode, once the prices are fetched. *)
Definition one_shot_output (json : bool) (symbol base_currency timestamp : string)
    (prices : Prices) : result Output :=
  if json then
    average ← json_average prices;
    Ok (JsonOutput (upper symbol) (upper base_currency) timestamp prices average)
  else
    lines ← display_results symbol base_currency prices timestamp;
    Ok (TextOutput lines).

End Checker.

(** * crypto_price_cli.py *)

Module Cli.

Definition gecko_table : gmap string string :=
  list_to_map
    [("btc", "bitcoin"); ("xbt", "bitcoin"); ("eth", "ethereum");
     ("ltc", "litecoin"); ("doge", "dogecoin"); ("dogecoin", "dogecoin");
     ("ada", "cardano"); ("sol", "solana"); ("xrp", "ripple");
     ("dot", "polkadot"); ("trx", "tron"); ("uni", "uniswap")]%string.

Definition gecko_id_for_symbol (symbol : string) : option string :=
  match gecko_table !! symbol with
  | Some slug => Some slug
  | None =>
      if bool_decide (symbol ∈ (map_to_list gecko_table).*2)
      then Some symbol
      else None
  end.

Definition binance_bases : gset string :=
  {[ "USDT"; "BUSD"; "EUR"; "GBP"; "TRY" ]}%string.

Definition binance_pair (symbol base : string) : option string :=
  let s := upper symbol in
  let b := upper base in
  let b := if String.eqb b "USD" then "USDT"%string else b in
  if bool_decide (b ∈ binance_bases) then Some (s +:+ b)%string else None.

Definition coinbase_pair (symbol base : string) : string :=
  (upper symbol +:+ "-" +:+ upper base)%string.

Section Adapters.
(** [http_get_json url]: the parsed answer, or the text of the exception. *)
Variable coingecko_get : string → string + gmap string (gmap string Q).
Variable binance_get : string → string + gmap string string.
(** [float(s)]: the number, or the text of the [ValueError]. *)
Variable float_of_string : string → string + Q.

Definition fetch_coingecko (symbol base : string) : option Q * option string :=
  match gecko_id_for_symbol symbol with
  | None => (None, Some "CoinGecko does not recognize symbol"%string)
  | Some sid =>
      let url := ("https://api.coingecko.com/api/v3/simple/price?ids=" +:+ sid
                    +:+ "&vs_currencies=" +:+ lower base)%string in
      match coingecko_get url with
      | inl e => (None, Some ("CoinGecko error: " +:+ e)%string)
      | inr data =>
          match default ∅ (data !! sid) !! lower base with
          | None => (None, Some "CoinGecko missing price"%string)
          | Some v => (Some v, None)
          end
      end
  end.

Definition fetch_binance (symbol base : string) : option Q * option string :=
  match binance_pair symbol base with
  | None => (None, Some "Binance unsupported base"%string)
  | Some pair_ =>
      let url := ("https://api.binance.com/api/v3/ticker/price?symbol=" +:+ pair_)%string in
      match binance_get url with
      | inl e => (None, Some ("Binance error: " +:+ e)%string)
      | inr data =>
          match data !! "price"%string with
          | None => (None, Some "Binance missing price"%string)
          | Some p =>
              match float_of_string p with
              | inl e => (None, Some ("Binance error: " +:+ e)%string)
              | inr v => (Some v, None)
              end
          end
      end
  end.
End Adapters.

End Cli.

(** * telegram_alerts.py *)

Module Alerts.

Record AlertConfig : Type := {
  spread_threshold : Q;
  price_above : option Q;
  price_below : option Q;
  price_change_pct : Q;
  price_change_window : Z;
  cooldown_seconds : Z;
  status_interval : option Z;
}.

Record AlertState : Type := {
  last_spread_alert : Q;
  last_price_above_alert : Q;
  last_price_below_alert : Q;
  last_price_change_alert : Q;
  last_status_update : Q;
  price_history : list (Q * Q);
}.

(** [AlertState()] *)
Definition initial_state : AlertState :=
  {| last_spread_alert := 0; last_price_above_alert := 0;
     last_price_below_alert := 0; last_price_change_alert := 0;
     last_status_update := 0; price_history := [] |}.

(** ** Messages

    The text handed to Telegram, kept as the data it is formatted from. *)

Inductive Message : Type :=
| SpreadAlert (symbol currency : string) (spread_pct : Q)
    (min_exchange : string) (min_price : Q)
    (max_exchange : string) (max_price : Q)
    (spread net_profit_usd : Q) (all_prices : list (string * Q))
| PriceAboveAlert (symbol : string) (avg_price threshold : Q)
| PriceBelowAlert (symbol : string) (avg_price threshold : Q)
| PriceChangeAlert (symbol : string) (change_pct oldest_price avg_price : Q)
    (window_minutes : Z)
| StatusMessage (symbol currency : string) (avg_price spread_pct : Q)
    (price_lines : list (string * Q)) (arb_info : option (string * string))
| StartupMessage (symbol : string) (config : AlertConfig)
| ShutdownMessage (symbol : string) (fetch_count alerts_sent : nat).

Inductive ConsoleLine : Type :=
| SpreadAlertSent (spread_pct : Q)
| PriceAboveSent
| PriceBelowSent
| PriceChangeSent (change_pct : Q)
| StatusSent
| NoDataReceived (timestamp : string)
| CycleStatus (timestamp : string) (avg_price spread_pct : Q) (alerts_sent : nat)
| EndOfLine.

(** [TelegramBot]: [delivery k] is the outcome of the [k]-th request of the
    session ([True] when Telegram answers [ok], [False] on any error);
    [outbox] lists the requests made so far with their outcomes. *)
Record TelegramBot : Type := {
  delivery : nat → bool;
  outbox : list (Message * bool);
}.

Record World : Type := {
  state : AlertState;
  bot : TelegramBot;
  console : list ConsoleLine;
}.

(** ** The state-and-exception monad *)

Definition M (A : Type) : Type := World → result A * World.

#[global] Instance M_ret : MRet M := λ A a w, (Ok a, w).
#[global] Instance M_bind : MBind M := λ A B f m w,
  match m w with
  | (Ok a, w') => f a w'
  | (Raise e, w') => (Raise e, w')
  end.

Definition lift {A} (r : result A) : M A := λ w, (r, w).

Definition get_state : M AlertState := λ w, (Ok (state w), w).

Definition put_state (s : AlertState) : M unit := λ w,
  (Ok (), {| state := s; bot := bot w; console := console w |}).

Definition print (l : ConsoleLine) : M unit := λ w,
  (Ok (), {| state := state w; bot := bot w; console := console w ++ [l] |}).

(** [bot.send_message(text)] *)
Definition send_message (m : Message) : M bool := λ w,
  let ok := delivery (bot w) (length (outbox (bot w))) in
  (Ok ok,
   {| state := state w;
      bot := {| delivery := delivery (bot w);
                outbox := outbox (bot w) ++ [(m, ok)] |};
      console := console w |}).

(** [bot.send_alert(title, body, emoji)] wraps the text and sends it. *)
Definition send_alert (m : Message) : M bool := send_message m.

(** Field updates of the mutable [state] object. *)
Definition set_last_spread_alert (t : Q) (s : AlertState) : AlertState :=
  {| last_spread_alert := t;
     last_price_above_alert := last_price_above_alert s;
     last_price_below_alert := last_price_below_alert s;
     last_price_change_alert := last_price_change_alert s;
     last_status_update := last_status_update s;
     price_history := price_history s |}.

Definition set_last_price_above_alert (t : Q) (s : AlertState) : AlertState :=
  {| last_spread_alert := last_spread_alert s;
     last_price_above_alert := t;
     last_price_below_alert := last_price_below_alert s;
     last_price_change_alert := last_price_change_alert s;
     last_status_update := last_status_update s;
     price_history := price_history s |}.

Definition set_last_price_below_alert (t : Q) (s : AlertState) : AlertState :=
  {| last_spread_alert := last_spread_alert s;
     last_price_above_alert := last_price_above_alert s;
     last_price_below_alert := t;
     last_price_change_alert := last_price_change_alert s;
     last_status_update := last_status_update s;
     price_history := price_history s |}.

Definition set_last_price_change_alert (t : Q) (s : AlertState) : AlertState :=
  {| last_spread_alert := last_spread_alert s;
     last_price_above_alert := last_price_above_alert s;
     last_price_below_alert := last_price_below_alert s;
     last_price_change_alert := t;
     last_status_update := last_status_update s;
     price_history := price_history s |}.

Definition set_last_status_update (t : Q) (s : AlertState) : AlertState :=
  {| last_spread_alert := last_spread_alert s;
     last_price_above_alert := last_price_above_alert s;
     last_price_below_alert := last_price_below_alert s;
     last_price_change_alert := last_price_change_alert s;
     last_status_update := t;
     price_history := price_history s |}.

Definition set_price_history (h : list (Q * Q)) (s : AlertState) : AlertState :=
  {| last_spread_alert := last_spread_alert s;
     last_price_above_alert := last_price_above_alert s;
     last_price_below_alert := last_price_below_alert s;
     last_price_change_alert := last_price_change_alert s;
     last_status_update := last_status_update s;
     price_history := h |}.

Definition modify_state (f : AlertState → AlertState) : M unit :=
  s ← get_state; put_state (f s).

(** ** Alert logic *)

(** [min(d, key=d.get)] and [max(d, key=d.get)]: the first key, in insertion
    order, that carries the least (greatest) value. *)
Fixpoint min_from (best : string * Q) (l : list (string * Q)) : string * Q :=
  match l with
  | [] => best
  | kv :: rest => if Qltb kv.2 best.2 then min_from kv rest else min_from best rest
  end.

Fixpoint max_from (best : string * Q) (l : list (string * Q)) : string * Q :=
  match l with
  | [] => best
  | kv :: rest => if Qltb best.2 kv.2 then max_from kv rest else max_from best rest
  end.

Definition min_by_value (d : list (string * Q)) : result (string * Q) :=
  match d with
  | [] => Raise ValueError
  | kv :: rest => Ok (min_from kv rest)
  end.

Definition max_by_value (d : list (string * Q)) : result (string * Q) :=
  match d with
  | [] => Raise ValueError
  | kv :: rest => Ok (max_from kv rest)
  end.

(** Lines 236-239: spread, average and spread percent of the valid prices. *)
Definition spread_stats (price_list : list Q) : result (Q * Q * Q) :=
  hi ← py_max price_list;
  lo ← py_min price_list;
  let spread := hi - lo in
  avg_price ← mean price_list;
  q ← py_div spread avg_price;
  Ok (spread, avg_price, q * 100).

Definition check_spread_alert (prices : Prices) (config : AlertConfig)
    (now : Q) (symbol currency : string) : M bool :=
  let valid_prices := valid_items prices in
  if (length valid_prices <? 2)%nat then mret false else
  '(spread, avg_price, spread_pct) ← lift (spread_stats valid_prices.*2);
  if Qltb spread_pct (spread_threshold config) then mret false else
  st ← get_state;
  if Qltb (now - last_spread_alert st) (inject_Z (cooldown_seconds config))
  then mret false else
  '(min_exchange, min_price) ← lift (min_by_value valid_prices);
  '(max_exchange, max_price) ← lift (max_by_value valid_prices);
  let fee_pct := 2 # 10 in
  let net_profit_pct := spread_pct - fee_pct in
  let net_profit_usd := (net_profit_pct / 100) * avg_price in
  sent ← send_alert (SpreadAlert (upper symbol) (upper currency) spread_pct
                       min_exchange min_price max_exchange max_price
                       spread net_profit_usd valid_prices);
  if (sent : bool) then
    modify_state (set_last_spread_alert now);;
    print (SpreadAlertSent spread_pct);;
    mret true
  else mret false.

(** The "price above" block of [check_price_threshold_alerts]. *)
Definition price_above_rule (avg_price : Q) (config : AlertConfig)
    (now : Q) (symbol : string) : M bool :=
  match price_above config with
  | Some above =>
      if truthy above && Qltb above avg_price then
        st ← get_state;
        if Qle_bool (inject_Z (cooldown_seconds config))
             (now - last_price_above_alert st)
        then
          ok ← send_alert (PriceAboveAlert (upper symbol) avg_price above);
          if (ok : bool) then
            modify_state (set_last_price_above_alert now);;
            print PriceAboveSent;;
            mret true
          else mret false
        else mret false
      else mret false
  | None => mret false
  end.

(** The "price below" block of [check_price_threshold_alerts]. *)
Definition price_below_rule (avg_price : Q) (config : AlertConfig)
    (now : Q) (symbol : string) : M bool :=
  match price_below config with
  | Some below =>
      if truthy below && Qltb avg_price below then
        st ← get_state;
        if Qle_bool (inject_Z (cooldown_seconds config))
             (now - last_price_below_alert st)
        then
          ok ← send_alert (PriceBelowAlert (upper symbol) avg_price below);
          if (ok : bool) then
            modify_state (set_last_price_below_alert now);;
            print PriceBelowSent;;
            mret true
          else mret false
        else mret false
      else mret false
  | None => mret false
  end.

(** Both blocks run on every call, with the same clock reading; [sent] is
    set when either alert went out. *)
Definition check_price_threshold_alerts (avg_price : Q) (config : AlertConfig)
    (now : Q) (symbol currency : string) : M bool :=
  sent_above ← price_above_rule avg_price config now symbol;
  sent_below ← price_below_rule avg_price config now symbol;
  mret (sent_above || sent_below).

(** The list comprehension that trims the history. *)
Definition trim_history (cutoff : Q) (h : list (Q * Q)) : list (Q * Q) :=
  filter (λ tp, Qltb cutoff tp.1 = true) h.

Definition check_price_change_alert (avg_price : Q) (config : AlertConfig)
    (now : Q) (symbol currency : string) : M bool :=
  modify_state (λ s, set_price_history (price_history s ++ [(now, avg_price)]) s);;
  let cutoff := now - inject_Z (price_change_window config) in
  modify_state (λ s, set_price_history (trim_history cutoff (price_history s)) s);;
  st ← get_state;
  if (length (price_history st) <? 2)%nat then mret false else
  match price_history st with
  | [] => lift (Raise IndexError)
  | (_, oldest_price) :: _ =>
      q ← lift (py_div (avg_price - oldest_price) oldest_price);
      let change_pct := q * 100 in
      if Qltb (Qabs change_pct) (price_change_pct config) then mret false else
      if Qltb (now - last_price_change_alert st) (inject_Z (cooldown_seconds config))
      then mret false else
      sent ← send_alert (PriceChangeAlert (upper symbol) change_pct oldest_price
                           avg_price (price_change_window config `div` 60));
      if (sent : bool) then
        modify_state (set_last_price_change_alert now);;
        print (PriceChangeSent change_pct);;
        mret true
      else mret false
  end.

Definition send_status_update (prices : Prices) (avg_price spread_pct : Q)
    (config : AlertConfig) (now : Q) (symbol currency : string) : M bool :=
  match status_interval config with
  | None => mret false
  | Some interval =>
      st ← get_state;
      if Qltb (now - last_status_update st) (inject_Z interval) then mret false else
      let valid_prices := valid_items prices in
      arb_info ←
        (if (2 <=? length valid_prices)%nat then
           '(min_exchange, _) ← lift (min_by_value valid_prices);
           '(max_exchange, _) ← lift (max_by_value valid_prices);
           mret (Some (min_exchange, max_exchange))
         else mret None);
      sent ← send_message (StatusMessage (upper symbol) (upper currency)
                             avg_price spread_pct valid_prices arb_info);
      if (sent : bool) then
        modify_state (set_last_status_update now);;
        print StatusSent;;
        mret true
      else mret false
  end.

(** ** Monitoring loop *)

(** What one iteration of the loop reads from the outside: the display
    timestamp, the fetched prices and the four clock readings taken by the
    alert checks. *)
Record Cycle : Type := {
  timestamp : string;
  fetched : Prices;
  t_spread : Q;
  t_threshold : Q;
  t_change : Q;
  t_status : Q;
}.

(** Lines 504-505 of [run_alert_monitor]. *)
Definition monitor_stats (valid_prices : list Q) : result (Q * Q) :=
  avg_price ← mean valid_prices;
  spread_pct ← (if (1 <? length valid_prices)%nat
                then hi ← py_max valid_prices;
                     lo ← py_min valid_prices;
                     q ← py_div (hi - lo) avg_price;
                     Ok (q * 100)
                else Ok 0);
  Ok (avg_price, spread_pct).

Definition count_alert (sent : bool) (alerts_sent : nat) : nat :=
  if sent then S alerts_sent else alerts_sent.

(** One iteration of the [while running] loop; returns the new value of
    [alerts_sent]. *)
Definition alert_cycle (symbol base_currency : string) (config : AlertConfig)
    (c : Cycle) (alerts_sent : nat) : M nat :=
  let prices := fetched c in
  let valid_prices := valid_values prices in
  match valid_prices with
  | [] => print (NoDataReceived (timestamp c));; mret alerts_sent
  | _ :: _ =>
      '(avg_price, spread_pct) ← lift (monitor_stats valid_prices);
      print (CycleStatus (timestamp c) avg_price spread_pct alerts_sent);;
      a1 ← check_spread_alert prices config (t_spread c) symbol base_currency;
      a2 ← check_price_threshold_alerts avg_price config (t_threshold c) symbol base_currency;
      a3 ← check_price_change_alert avg_price config (t_change c) symbol base_currency;
      let alerts_sent := count_alert a3 (count_alert a2 (count_alert a1 alerts_sent)) in
      let alert_sent := a1 || a2 || a3 in
      status ← send_status_update prices avg_price spread_pct config (t_status c)
                 symbol base_currency;
      (if (status : bool) then mret ()
       else if negb alert_sent then print EndOfLine else mret ());;
      mret alerts_sent
  end.

(** The iterations that happen before the stop signal. *)
Fixpoint alert_loop (symbol base_currency : string) (config : AlertConfig)
    (cycles : list Cycle) (fetch_count alerts_sent : nat) : M (nat * nat) :=
  match cycles with
  | [] => mret (fetch_count, alerts_sent)
  | c :: rest =>
      alerts_sent' ← alert_cycle symbol base_currency config c alerts_sent;
      alert_loop symbol base_currency config rest (S fetch_count) alerts_sent'
  end.

Definition run_alert_monitor (symbol base_currency : string)
    (config : AlertConfig) (cycles : list Cycle) : M (nat * nat) :=
  put_state initial_state;;
  send_message (StartupMessage symbol config);;
  '(fetch_count, alerts_sent) ← alert_loop symbol base_currency config cycles 0 0;
  send_message (ShutdownMessage (upper symbol) fetch_count alerts_sent);;
  mret (fetch_count, alerts_sent).

End Alerts.

(** * telegram_alerts.py: price fetching *)

Module AlertPrices.

Definition COINGECKO_SYMBOL_MAP : gmap string string :=
  list_to_map
    [("btc", "bitcoin"); ("eth", "ethereum"); ("sol", "solana");
     ("ada", "cardano"); ("xrp", "ripple"); ("doge", "dogecoin");
     ("dot", "polkadot"); ("matic", "polygon"); ("link", "chainlink");
     ("avax", "avalanche-2"); ("ltc", "litecoin"); ("uni", "uniswap");
     ("bnb", "binancecoin"); ("shib", "shiba-inu")]%string.

Definition BINANCE_QUOTE_MAP : gmap string string :=
  list_to_map [("usd", "USDT"); ("eur", "EUR"); ("gbp", "GBP")]%string.

Definition COINBASE_QUOTE_MAP : gmap string string :=
  list_to_map [("usd", "USD"); ("eur", "EUR"); ("gbp", "GBP")]%string.

Definition coingecko_coin_id (symbol : string) : string :=
  default (lower symbol) (COINGECKO_SYMBOL_MAP !! lower symbol).

(** The quote currency goes into the URL as it was given. *)
Definition coingecko_url (symbol base_currency : string) : string :=
  ("https://api.coingecko.com/api/v3/simple/price?ids="
     +:+ coingecko_coin_id symbol
     +:+ "&vs_currencies=" +:+ base_currency)%string.

Definition binance_pair (symbol base_currency : string) : string :=
  (upper symbol
     +:+ default "USDT"%string (BINANCE_QUOTE_MAP !! lower base_currency))%string.

Definition binance_url (symbol base_currency : string) : string :=
  ("https://api.binance.com/api/v3/ticker/price?symbol="
     +:+ binance_pair symbol base_currency)%string.

Definition coinbase_pair (symbol base_currency : string) : string :=
  (upper symbol +:+ "-"
     +:+ default "USD"%string (COINBASE_QUOTE_MAP !! lower base_currency))%string.

Definition coinbase_url (symbol base_currency : string) : string :=
  ("https://api.coinbase.com/v2/prices/" +:+ coinbase_pair symbol base_currency
     +:+ "/spot")%string.

Section Adapters.
Variable coingecko_request : string → option (gmap string (gmap string Q)).
Variable binance_request : string → option (gmap string string).
Variable coinbase_request : string → option (gmap string (gmap string string)).
Variable float_of_string : string → option Q.

Definition fetch_coingecko (symbol base_currency : string) : option Q * string :=
  let coin_id := coingecko_coin_id symbol in
  match coingecko_request (coingecko_url symbol base_currency) with
  | Some data =>
      match data !! coin_id with
      | Some entry =>
          match entry !! base_currency with
          | Some price => (Some price, "CoinGecko"%string)
          | None => (None, "CoinGecko"%string)
          end
      | None => (None, "CoinGecko"%string)
      end
  | None => (None, "CoinGecko"%string)
  end.

Definition fetch_binance (symbol base_currency : string) : option Q * string :=
  match binance_request (binance_url symbol base_currency) with
  | Some data =>
      match data !! "price"%string with
      | Some s =>
          match float_of_string s with
          | Some price => (Some price, "Binance"%string)
          | None => (None, "Binance"%string)
          end
      | None => (None, "Binance"%string)
      end
  | None => (None, "Binance"%string)
  end.

Definition fetch_coinbase (symbol base_currency : string) : option Q * string :=
  match coinbase_request (coinbase_url symbol base_currency) with
  | Some data =>
      match data !! "data"%string with
      | Some inner =>
          match inner !! "amount"%string with
          | Some s =>
              match float_of_string s with
              | Some price => (Some price, "Coinbase"%string)
              | None => (None, "Coinbase"%string)
              end
          | None => (None, "Coinbase"%string)
          end
      | None => (None, "Coinbase"%string)
      end
  | None => (None, "Coinbase"%string)
  end.

(** [fetch_all_prices]: the three providers in a fixed order, each stored
    under the name of the list, with a sleep after every one. *)
Definition fetch_all_prices (symbol base_currency : string) : Prices * nat :=
  let providers :=
    [("CoinGecko"%string, fetch_coingecko); ("Binance"%string, fetch_binance);
     ("Coinbase"%string, fetch_coinbase)] in
  foldl (λ acc provider,
           let '(results, sleeps) := acc in
           let '(name, fetch_func) := provider in
           let '(price, _) := fetch_func symbol base_currency in
           (dict_set results name price, S sleeps))
        ([], 0%nat) providers.
End Adapters.

End AlertPrices.

(** * Vocabulary of the properties *)

(** [m] is a greatest (least) element of [l]. *)
Definition is_max (l : list Q) (m : Q) : Prop := m ∈ l ∧ ∀ y, y ∈ l → y <= m.
Definition is_min (l : list Q) (m : Q) : Prop := m ∈ l ∧ ∀ y, y ∈ l → m <= y.

(** The scenario of the specification: three providers around 100000. *)
Definition scenario_prices : Prices :=
  [("CoinGecko"%string, Some 100000); ("Binance"%string, Some 100200);
   ("Coinbase"%string, Some 99800)].

(** Two providers that both quote a price of zero, the third one failing. *)
Definition zero_prices : Prices :=
  [("CoinGecko"%string, Some 0); ("Binance"%string, Some 0);
   ("Coinbase"%string, None)].

Import Alerts.

(** ** Alert rules

    The four cooldown-gated rules, with the state field each one keeps. *)

Inductive Rule : Type :=
| SpreadRule
| PriceAboveRule
| PriceBelowRule
| PriceChangeRule.

(** What a rule is evaluated on. *)
Record Inputs : Type := {
  in_prices : Prices;
  in_avg_price : Q;
  in_config : AlertConfig;
  in_symbol : string;
  in_currency : string;
}.

Definition run_rule (r : Rule) (i : Inputs) (now : Q) : M bool :=
  match r with
  | SpreadRule =>
      check_spread_alert (in_prices i) (in_config i) now (in_symbol i) (in_currency i)
  | PriceAboveRule =>
      price_above_rule (in_avg_price i) (in_config i) now (in_symbol i)
  | PriceBelowRule =>
      price_below_rule (in_avg_price i) (in_config i) now (in_symbol i)
  | PriceChangeRule =>
      check_price_change_alert (in_avg_price i) (in_config i) now (in_symbol i)
        (in_currency i)
  end.

Definition last_fired (r : Rule) (s : AlertState) : Q :=
  match r with
  | SpreadRule => last_spread_alert s
  | PriceAboveRule => last_price_above_alert s
  | PriceBelowRule => last_price_below_alert s
  | PriceChangeRule => last_price_change_alert s
  end.

Definition rule_of_message (m : Message) : option Rule :=
  match m with
  | SpreadAlert _ _ _ _ _ _ _ _ _ _ => Some SpreadRule
  | PriceAboveAlert _ _ _ => Some PriceAboveRule
  | PriceBelowAlert _ _ _ => Some PriceBelowRule
  | PriceChangeAlert _ _ _ _ _ => Some PriceChangeRule
  | _ => None
  end.

(** The history a call at [now] retains: the sample is appended, then the
    list is trimmed. *)
Definition retained (avg_price : Q) (config : AlertConfig) (now : Q)
    (s : AlertState) : list (Q * Q) :=
  trim_history (now - inject_Z (price_change_window config))
    (price_history s ++ [(now, avg_price)]).

(** The condition of a rule, cooldown aside. *)
Definition condition (r : Rule) (i : Inputs) (now : Q) (s : AlertState) : Prop :=
  match r with
  | SpreadRule =>
      let l := valid_values (in_prices i) in
      let avg := Qsum l / inject_Z (Z.of_nat (length l)) in
      (2 ≤ length l)%nat ∧ ¬ avg == 0
      ∧ ∃ hi lo, is_max l hi ∧ is_min l lo
                 ∧ spread_threshold (in_config i) <= (hi - lo) / avg * 100
  | PriceAboveRule =>
      ∃ above, price_above (in_config i) = Some above
               ∧ ¬ above == 0 ∧ above < in_avg_price i
  | PriceBelowRule =>
      ∃ below, price_below (in_config i) = Some below
               ∧ ¬ below == 0 ∧ in_avg_price i < below
  | PriceChangeRule =>
      ∃ t0 p0 rest,
        retained (in_avg_price i) (in_config i) now s = (t0, p0) :: rest
        ∧ rest ≠ [] ∧ ¬ p0 == 0
        ∧ price_change_pct (in_config i)
          <= Qabs ((in_avg_price i - p0) / p0 * 100)
  end.

Definition cooldown_elapsed (r : Rule) (config : AlertConfig) (now : Q)
    (s : AlertState) : Prop :=
  inject_Z (cooldown_seconds config) <= now - last_fired r s.

(** The outcome of the next request made through the bot of [w]. *)
Definition next_delivery (w : World) : bool :=
  delivery (bot w) (length (outbox (bot w))).

(** Between [w] and [w'] nothing was sent. *)
Definition silent (w w' : World) : Prop :=
  outbox (bot w') = outbox (bot w).

(** Between [w] and [w'] exactly one message was sent, an alert of rule [r]. *)
Definition fired (r : Rule) (w w' : World) : Prop :=
  ∃ m, rule_of_message m = Some r
       ∧ outbox (bot w') = outbox (bot w) ++ [(m, next_delivery w)].

(** Non-decreasing timestamps. *)
Definition time_ordered (h : list (Q * Q)) : Prop :=
  StronglySorted (λ a b, a.1 <= b.1) h.

(** ** Concrete sessions *)

Definition example_config : AlertConfig :=
  {| spread_threshold := 3 # 10;
     price_above := Some 100000;
     price_below := None;
     price_change_pct := 2;
     price_change_window := 300;
     cooldown_seconds := 300;
     status_interval := None |}.

(** The same configuration with [--change-window 0]. *)
Definition zero_window_config : AlertConfig :=
  {| spread_threshold := 3 # 10;
     price_above := Some 100000;
     price_below := None;
     price_change_pct := 2;
     price_change_window := 0;
     cooldown_seconds := 300;
     status_interval := None |}.

(** The same configuration with [--status-interval 0]. *)
Definition zero_interval_config : AlertConfig :=
  {| spread_threshold := 3 # 10;
     price_above := Some 100000;
     price_below := None;
     price_change_pct := 2;
     price_change_window := 300;
     cooldown_seconds := 300;
     status_interval := Some 0%Z |}.

(** The same configuration with [--status-interval 60]. *)
Definition minute_interval_config : AlertConfig :=
  {| spread_threshold := 3 # 10;
     price_above := Some 100000;
     price_below := None;
     price_change_pct := 2;
     price_change_window := 300;
     cooldown_seconds := 300;
     status_interval := Some 60%Z |}.

Definition example_inputs : Inputs :=
  {| in_prices := scenario_prices;
     in_avg_price := 100050;
     in_config := example_config;
     in_symbol := "btc";
     in_currency := "usd" |}.

(** A bot whose every request has outcome [ok], with nothing sent yet. *)
Definition fresh_bot (ok : bool) : TelegramBot :=
  {| delivery := λ _, ok; outbox := [] |}.

(** A fresh session. *)
Definition fresh_world (ok : bool) : World :=
  {| state := initial_state; bot := fresh_bot ok; console := [] |}.

(** A session in which the price-above rule fired at time 1000. *)
Definition fired_world (ok : bool) : World :=
  {| state := set_last_price_above_alert 1000 initial_state;
     bot := fresh_bot ok;
     console := [] |}.

(** A session whose history holds one sample, taken at time 0. *)
Definition sampled_world (price : Q) : World :=
  {| state := set_price_history [(0, price)] initial_state;
     bot := fresh_bot true;
     console := [] |}.

(** A session whose history holds one sample, taken at time 1000. *)
Definition late_sample_world : World :=
  {| state := set_price_history [(1000, 100)] initial_state;
     bot := fresh_bot true;
     console := [] |}.

(** One provider answers, two fail. *)
Definition single_prices : Prices :=
  [("CoinGecko"%string, Some 100000); ("Binance"%string, None);
   ("Coinbase"%string, None)].

(** Two providers agree on the price, the third one fails. *)
Definition identical_prices : Prices :=
  [("CoinGecko"%string, Some 100); ("Binance"%string, Some 100);
   ("Coinbase"%string, None)].

(** All three providers fail. *)
Definition no_prices : Prices :=
  [("CoinGecko"%string, None); ("Binance"%string, None);
   ("Coinbase"%string, None)].

Definition example_cycle (prices : Prices) : Cycle :=
  {| timestamp := "12:00:00"; fetched := prices;
     t_spread := 1000; t_threshold := 1000; t_change := 1000;
     t_status := 1000 |}.

(** A monitoring cycle in which at least one provider answered. *)
Definition has_data (c : string * Prices) : bool :=
  match valid_values c.2 with
  | [] => false
  | _ :: _ => true
  end.

(** The same configuration with [--spread-alert 0.5]. *)
Definition half_percent_config : AlertConfig :=
  {| spread_threshold := 5 # 10;
     price_above := Some 100000;
     price_below := None;
     price_change_pct := 2;
     price_change_window := 300;
     cooldown_seconds := 300;
     status_interval := None |}.

(** The [average], [spread] and [spread_pct] columns of a CSV row: its last
    three cells. *)
Definition stat_columns (row : Checker.Row)
    : option (Checker.Cell * Checker.Cell * Checker.Cell) :=
  match reverse row with
  | pct :: spread :: avg :: _ => Some (avg, spread, pct)
  | _ => None
  end.

(** ** Providers, Kraken entries and delivered alerts *)

(** The names under which the four adapters of the checker answer. *)
Definition provider_names : list string :=
  ["CoinGecko"; "Binance"; "Coinbase"; "Kraken"]%string.

(** An entry of a Kraken answer whose last-trade field ["c"] starts with a
    string that [float()] reads as [price]. *)
Definition kraken_entry_price (float_of_string : string → option Q)
    (entry : string * gmap string (list string)) (price : Q) : Prop :=
  ∃ s rest, entry.2 !! "c"%string = Some (s :: rest)
            ∧ float_of_string s = Some price.

(** A request of the outbox that carried an alert of one of the four rules
    and was delivered. *)
Definition is_delivered_alert (mb : Message * bool) : bool :=
  match rule_of_message mb.1 with
  | Some _ => mb.2
  | None => false
  end.

Definition alerts_delivered (l : list (Message * bool)) : nat :=
  length (filter (λ mb, is_delivered_alert mb = true) l).

(** [m], run from [w], ends with a result and a world that satisfy [Q]. *)
Definition ends_in {A} (m : M A) (w : World)
    (Q : result A → World → Prop) : Prop :=
  Q (m w).1 (m w).2.


(** ** Further concrete inputs *)

(** A network on which only Binance answers, with a price of 100200. *)
Definition no_answer {A} : string → option A := λ _, None.

Definition binance_only : string → option (gmap string string) :=
  λ url,
    if String.eqb url "https://api.binance.com/api/v3/ticker/price?symbol=BTCUSDT"
    then Some {[ "price"%string := "100200.00"%string ]} else None.

Definition example_float : string → option Q :=
  λ s, if String.eqb s "100200.00" then Some 100200 else None.

(** A Kraken answer whose first entry has no last trade. *)
Definition kraken_items : list (string * gmap string (list string)) :=
  [("XXBTZUSD"%string, {[ "c"%string := [] ]});
   ("XBTUSD"%string, {[ "c"%string := ["100200.00"%string; "0.5"%string] ]})].

(** Alerts above 100 and below 200, so that a price of 150 meets both. *)
Definition band_config : AlertConfig :=
  {| spread_threshold := 3 # 10;
     price_above := Some 100;
     price_below := Some 200;
     price_change_pct := 2;
     price_change_window := 300;
     cooldown_seconds := 300;
     status_interval := None |}.

(** An iteration of the alert loop whose four clock readings are [t]. *)
Definition cycle_at (t : Q) (prices : Prices) : Cycle :=
  {| timestamp := "12:00:00"; fetched := prices;
     t_spread := t; t_threshold := t; t_change := t; t_status := t |}.

(** A session of one cycle in which a single provider quotes 150. *)
Definition band_session : list Cycle :=
  [cycle_at 1000 [("CoinGecko"%string, Some 150)]].

(** * Properties *)

(** ** Comparisons, division, extrema *)

Lemma Qltb_lt (x y : Q) : Qltb x y = true ↔ x < y.
Proof.
  unfold Qltb. rewrite negb_true_iff, <- not_true_iff_false, Qle_bool_iff.
  split; [apply Qnot_le_lt | apply Qlt_not_le].
Qed.

Lemma Qltb_ge (x y : Q) : Qltb x y = false ↔ y <= x.
Proof. unfold Qltb. rewrite negb_false_iff. apply Qle_bool_iff. Qed.

Lemma truthy_nonzero (x : Q) : truthy x = true ↔ ¬ x == 0.
Proof.
  unfold truthy. rewrite negb_true_iff, <- not_true_iff_false, Qeq_bool_iff.
  tauto.
Qed.

Lemma truthy_zero (x : Q) : truthy x = false ↔ x == 0.
Proof. unfold truthy. rewrite negb_false_iff. apply Qeq_bool_iff. Qed.

Lemma py_div_ok (x y : Q) : ¬ y == 0 → py_div x y = Ok (x / y).
Proof.
  intros Hy. unfold py_div.
  destruct (Qeq_bool y 0) eqn:E; [|reflexivity].
  apply Qeq_bool_iff in E. contradiction.
Qed.

Lemma py_div_zero (x y : Q) : y == 0 → py_div x y = Raise ZeroDivisionError.
Proof.
  intros Hy. unfold py_div. apply Qeq_bool_iff in Hy. now rewrite Hy.
Qed.

Lemma Qmax_cases (x y : Q) : (Qmax x y = y ∧ x <= y) ∨ (Qmax x y = x ∧ y <= x).
Proof.
  unfold Qmax. destruct (Qltb x y) eqn:E.
  - left. split; [reflexivity|]. apply Qlt_le_weak. now apply Qltb_lt.
  - right. split; [reflexivity | now apply Qltb_ge].
Qed.

Lemma Qmin_cases (x y : Q) : (Qmin x y = x ∧ x <= y) ∨ (Qmin x y = y ∧ y <= x).
Proof.
  unfold Qmin. destruct (Qltb y x) eqn:E.
  - right. split; [reflexivity|]. apply Qlt_le_weak. now apply Qltb_lt.
  - left. split; [reflexivity | now apply Qltb_ge].
Qed.

Lemma foldl_Qmax_spec (xs : list Q) (x : Q) : is_max (x :: xs) (foldl Qmax x xs).
Proof.
  revert x. induction xs as [|a xs IH]; intros x; simpl.
  - split; [left|]. intros y Hy. apply list_elem_of_singleton in Hy. subst. apply Qle_refl.
  - destruct (IH (Qmax x a)) as [Hin Hub]. split.
    + apply elem_of_cons in Hin as [Hin|Hin].
      * rewrite Hin. destruct (Qmax_cases x a) as [[-> _]|[-> _]].
        -- right; left. -- left.
      * right; right; exact Hin.
    + intros y Hy.
      assert (Hm : x <= Qmax x a ∧ a <= Qmax x a).
      { destruct (Qmax_cases x a) as [[-> H]|[-> H]]; split;
          auto using Qle_refl. }
      assert (Htop : Qmax x a <= foldl Qmax (Qmax x a) xs) by (apply Hub; left).
      apply elem_of_cons in Hy as [->|Hy].
      * eapply Qle_trans; [apply Hm | exact Htop].
      * apply elem_of_cons in Hy as [->|Hy].
        -- eapply Qle_trans; [apply Hm | exact Htop].
        -- apply Hub. right; exact Hy.
Qed.

Lemma foldl_Qmin_spec (xs : list Q) (x : Q) : is_min (x :: xs) (foldl Qmin x xs).
Proof.
  revert x. induction xs as [|a xs IH]; intros x; simpl.
  - split; [left|]. intros y Hy. apply list_elem_of_singleton in Hy. subst. apply Qle_refl.
  - destruct (IH (Qmin x a)) as [Hin Hlb]. split.
    + apply elem_of_cons in Hin as [Hin|Hin].
      * rewrite Hin. destruct (Qmin_cases x a) as [[-> _]|[-> _]].
        -- left. -- right; left.
      * right; right; exact Hin.
    + intros y Hy.
      assert (Hm : Qmin x a <= x ∧ Qmin x a <= a).
      { destruct (Qmin_cases x a) as [[-> H]|[-> H]]; split;
          auto using Qle_refl. }
      assert (Hbot : foldl Qmin (Qmin x a) xs <= Qmin x a) by (apply Hlb; left).
      apply elem_of_cons in Hy as [->|Hy].
      * eapply Qle_trans; [exact Hbot | apply Hm].
      * apply elem_of_cons in Hy as [->|Hy].
        -- eapply Qle_trans; [exact Hbot | apply Hm].
        -- apply Hlb. right; exact Hy.
Qed.

Lemma py_max_spec (l : list Q) (m : Q) : py_max l = Ok m → is_max l m.
Proof.
  destruct l as [|x xs]; simpl; [discriminate|].
  intros [= <-]. apply foldl_Qmax_spec.
Qed.

Lemma py_min_spec (l : list Q) (m : Q) : py_min l = Ok m → is_min l m.
Proof.
  destruct l as [|x xs]; simpl; [discriminate|].
  intros [= <-]. apply foldl_Qmin_spec.
Qed.

Lemma py_max_total (l : list Q) : (0 < length l)%nat → ∃ m, py_max l = Ok m.
Proof. destruct l; simpl; [lia | eauto]. Qed.

Lemma py_min_total (l : list Q) : (0 < length l)%nat → ∃ m, py_min l = Ok m.
Proof. destruct l; simpl; [lia | eauto]. Qed.

Lemma mean_total (l : list Q) :
  (0 < length l)%nat → mean l = Ok (Qsum l / inject_Z (Z.of_nat (length l))).
Proof. destruct l; simpl; [lia | reflexivity]. Qed.

Lemma valid_items_values (prices : Prices) :
  (valid_items prices).*2 = valid_values prices.
Proof.
  unfold valid_items, valid_values.
  induction prices as [|[k [v|]] rest IH]; simpl; [reflexivity| |exact IH].
  f_equal. exact IH.
Qed.

(** ** Aggregate statistics *)

Section Statistics.
Variable l : list Q.
Hypothesis two_prices : (2 ≤ length l)%nat.

Let n : Q := inject_Z (Z.of_nat (length l)).

Lemma stats_inputs :
  ∃ hi lo, py_max l = Ok hi ∧ py_min l = Ok lo ∧ mean l = Ok (Qsum l / n)
           ∧ is_max l hi ∧ is_min l lo.
Proof.
  destruct (py_max_total l) as [hi Hhi]; [lia|].
  destruct (py_min_total l) as [lo Hlo]; [lia|].
  exists hi, lo. repeat split; auto.
  - apply mean_total. lia.
  - now apply py_max_spec.
  - apply (py_max_spec _ _ Hhi).
  - now apply py_min_spec.
  - apply (py_min_spec _ _ Hlo).
Qed.

(** [display_results]: mean, max - min, and a percentage that is guarded
    by [avg_price > 0]. *)
Lemma display_stats_spec :
  ∃ hi lo pct,
    Checker.display_stats l = Ok (Qsum l / n, hi - lo, pct)
    ∧ is_max l hi ∧ is_min l lo
    ∧ (0 < Qsum l / n → pct = (hi - lo) / (Qsum l / n) * 100)
    ∧ (Qsum l / n <= 0 → pct = 0).
Proof.
  destruct stats_inputs as (hi & lo & Hhi & Hlo & Hmean & Hmax & Hmin).
  unfold Checker.display_stats. rewrite Hmean, Hhi, Hlo. cbn.
  destruct (Qltb 0 (Qsum l / n)) eqn:E.
  - apply Qltb_lt in E. rewrite py_div_ok by lra. cbn.
    eexists _, _, _. repeat split; eauto; try apply Hmax; try apply Hmin.
    intros. lra.
  - apply Qltb_ge in E. cbn.
    eexists _, _, _. repeat split; eauto; try apply Hmax; try apply Hmin.
    intros. lra.
Qed.

(** [check_spread_alert]: the same three numbers, but the division is not
    guarded. *)
Lemma spread_stats_spec :
  ∃ hi lo,
    is_max l hi ∧ is_min l lo
    ∧ (¬ Qsum l / n == 0 →
       Alerts.spread_stats l
       = Ok (hi - lo, Qsum l / n, (hi - lo) / (Qsum l / n) * 100))
    ∧ (Qsum l / n == 0 → Alerts.spread_stats l = Raise ZeroDivisionError).
Proof.
  destruct stats_inputs as (hi & lo & Hhi & Hlo & Hmean & Hmax & Hmin).
  exists hi, lo. unfold Alerts.spread_stats. rewrite Hmean, Hhi, Hlo. cbn.
  repeat split; try apply Hmax; try apply Hmin.
  - intros Hne. now rewrite py_div_ok.
  - intros Hz. now rewrite py_div_zero.
Qed.
End Statistics.

Lemma scenario_display_stats :
  ∃ avg spread pct,
    Checker.display_stats (valid_values scenario_prices) = Ok (avg, spread, pct)
    ∧ avg == 100000 ∧ spread == 400 ∧ pct == 4 # 10.
Proof. eexists _, _, _. split; [reflexivity|]. repeat split. Qed.

Lemma scenario_spread_stats :
  ∃ avg spread pct,
    Alerts.spread_stats (valid_items scenario_prices).*2 = Ok (spread, avg, pct)
    ∧ avg == 100000 ∧ spread == 400 ∧ pct == 4 # 10.
Proof. eexists _, _, _. split; [reflexivity|]. repeat split. Qed.

(** Whenever the valid prices average to zero, the spread check raises
    before it reads the state or the clock. *)
Lemma check_spread_alert_zero_average (prices : Prices)
    (config : Alerts.AlertConfig) (now : Q) (symbol currency : string)
    (w : Alerts.World) :
  (2 ≤ length (valid_values prices))%nat →
  Qsum (valid_values prices) == 0 →
  Alerts.check_spread_alert prices config now symbol currency w
  = (Raise ZeroDivisionError, w).
Proof.
  intros Hlen Hzero. unfold Alerts.check_spread_alert.
  assert (Hl : length (valid_items prices) = length (valid_values prices)).
  { now rewrite <- valid_items_values, length_fmap. }
  rewrite Hl. replace (_ <? 2)%nat with false by (symmetry; apply Nat.ltb_ge; lia).
  rewrite valid_items_values.
  destruct (spread_stats_spec _ Hlen) as (hi & lo & _ & _ & _ & Hraise).
  rewrite Hraise; [reflexivity|]. rewrite Hzero. reflexivity.
Qed.

(** C1.  With two or more valid prices the average is the mean and the spread
    is max - min; the percentage is to be 0 when the average is 0.
    [display_results] has that guard.  [check_spread_alert] and the status
    line of [run_alert_monitor] divide without it: on [zero_prices] the
    guarded path reports a spread percent of 0, the alert paths raise
    [ZeroDivisionError] and leave the world as it was. *)
Theorem zero_average_guard :
  (∃ avg spread,
     Checker.display_stats (valid_values zero_prices) = Ok (avg, spread, 0)
     ∧ avg == 0 ∧ spread == 0)
  ∧ (∀ config now symbol currency w,
       Alerts.check_spread_alert zero_prices config now symbol currency w
       = (Raise ZeroDivisionError, w))
  ∧ (∀ symbol base_currency config ts t1 t2 t3 t4 alerts_sent w,
       Alerts.alert_cycle symbol base_currency config
         {| Alerts.timestamp := ts; Alerts.fetched := zero_prices;
            Alerts.t_spread := t1; Alerts.t_threshold := t2;
            Alerts.t_change := t3; Alerts.t_status := t4 |} alerts_sent w
       = (Raise ZeroDivisionError, w)).
Proof.
  split; [|split].
  - eexists _, _. split; [reflexivity|]. split; reflexivity.
  - reflexivity.
  - reflexivity.
Qed.

(** ** Alert rules *)

(** Symbolic execution of a monadic computation on an arbitrary world. *)
Ltac run_monad :=
  unfold modify_state, send_alert in *;
  unfold mbind, mret, M_bind, M_ret, lift, get_state, put_state,
    print, send_message,
    set_last_spread_alert, set_last_price_above_alert,
    set_last_price_below_alert, set_last_price_change_alert,
    set_last_status_update, set_price_history in *;
  cbv beta iota zeta;
  cbn [state bot console outbox delivery fst snd
       last_spread_alert last_price_above_alert last_price_below_alert
       last_price_change_alert last_status_update price_history].

Ltac branch :=
  match goal with
  | |- context [match ?x with _ => _ end] =>
      lazymatch x with
      | context [match _ with _ => _ end] => fail
      | _ => destruct x eqn:?
      end
  end.

Ltac explore := run_monad; repeat (branch; run_monad).

Ltac no_alert :=
  left; split; [congruence | split; [reflexivity | intros []; reflexivity]].

Ltac one_alert :=
  right; split; [reflexivity|];
  split; [eexists; split; [|reflexivity]; reflexivity|];
  split; [first [now apply Qltb_ge | now apply Qle_bool_iff]|];
  split; [reflexivity|];
  intros [] ?; first [reflexivity | congruence].

(** Every evaluation of a rule either sends nothing and leaves all last-fired
    timestamps alone, or passes its cooldown, sends one alert of its own kind
    and stamps its own field when, and only when, the request is delivered. *)
Lemma rule_outcome (r : Rule) (i : Inputs) (now : Q) (w : World) :
  let res := (run_rule r i now w).1 in
  let w' := (run_rule r i now w).2 in
  (res ≠ Ok true ∧ silent w w'
   ∧ ∀ r', last_fired r' (state w') = last_fired r' (state w))
  ∨ (res = Ok (next_delivery w) ∧ fired r w w'
     ∧ cooldown_elapsed r (in_config i) now (state w)
     ∧ last_fired r (state w') = (if next_delivery w then now else last_fired r (state w))
     ∧ ∀ r', r' ≠ r → last_fired r' (state w') = last_fired r' (state w)).
Proof.
  unfold silent, fired, next_delivery, cooldown_elapsed.
  destruct r; unfold run_rule, check_spread_alert, price_above_rule,
    price_below_rule, check_price_change_alert;
    explore; try solve [no_alert | one_alert].
Qed.

Lemma is_max_unique l a b : is_max l a → is_max l b → a == b.
Proof. intros [Ha Ha'] [Hb Hb']. apply Qle_antisym; auto. Qed.

Lemma is_min_unique l a b : is_min l a → is_min l b → a == b.
Proof. intros [Ha Ha'] [Hb Hb']. apply Qle_antisym; auto. Qed.

(** A rule whose condition holds and whose cooldown has elapsed sends. *)
Lemma rule_fires (r : Rule) (i : Inputs) (now : Q) (w : World) :
  condition r i now (state w) →
  cooldown_elapsed r (in_config i) now (state w) →
  (run_rule r i now w).1 = Ok (next_delivery w)
  ∧ fired r w (run_rule r i now w).2.
Proof.
  unfold cooldown_elapsed, fired, next_delivery.
  destruct r; cbn [condition run_rule last_fired].
  - intros (Hlen & Hne & hi & lo & Hhi & Hlo & Hthr) Hcool.
    unfold check_spread_alert.
    assert (Hl : length (valid_items (in_prices i)) = length (valid_values (in_prices i))).
    { now rewrite <- valid_items_values, length_fmap. }
    rewrite Hl. replace (_ <? 2)%nat with false by (symmetry; apply Nat.ltb_ge; lia).
    rewrite valid_items_values.
    destruct (spread_stats_spec _ Hlen) as (hi' & lo' & Hhi' & Hlo' & Hok & _).
    rewrite (Hok Hne). run_monad.
    assert (Ehi : hi' == hi) by eauto using is_max_unique.
    assert (Elo : lo' == lo) by eauto using is_min_unique.
    replace (Qltb _ (spread_threshold _)) with false
      by (symmetry; apply Qltb_ge; now rewrite Ehi, Elo).
    replace (Qltb _ (inject_Z _)) with false by (symmetry; now apply Qltb_ge).
    destruct (valid_items (in_prices i)) as [|kv rest] eqn:E; [simpl in Hl; lia|].
    cbn [min_by_value max_by_value].
    destruct (min_from kv rest), (max_from kv rest).
    destruct (delivery _ _); run_monad; (split; [reflexivity|]);
      eexists; (split; [|reflexivity]); reflexivity.
  - intros (above & Habove & Hne & Hlt) Hcool. unfold price_above_rule. rewrite Habove.
    apply truthy_nonzero in Hne. apply Qltb_lt in Hlt. apply Qle_bool_iff in Hcool.
    rewrite Hne, Hlt. cbn [andb]. run_monad. rewrite Hcool.
    destruct (delivery _ _); run_monad; (split; [reflexivity|]);
      eexists; (split; [|reflexivity]); reflexivity.
  - intros (below & Hbelow & Hne & Hlt) Hcool. unfold price_below_rule. rewrite Hbelow.
    apply truthy_nonzero in Hne. apply Qltb_lt in Hlt. apply Qle_bool_iff in Hcool.
    rewrite Hne, Hlt. cbn [andb]. run_monad. rewrite Hcool.
    destruct (delivery _ _); run_monad; (split; [reflexivity|]);
      eexists; (split; [|reflexivity]); reflexivity.
  - intros (t0 & p0 & rest & Hret & Hrest & Hne & Hthr) Hcool.
    unfold check_price_change_alert, retained in *. run_monad.
    rewrite Hret. destruct rest as [|x rest]; [congruence|].
    cbn [length Nat.ltb Nat.leb]. rewrite py_div_ok by exact Hne. run_monad.
    replace (Qltb (Qabs _) _) with false by (symmetry; now apply Qltb_ge).
    replace (Qltb _ (inject_Z _)) with false by (symmetry; now apply Qltb_ge).
    destruct (delivery _ _); run_monad; (split; [reflexivity|]);
      eexists; (split; [|reflexivity]); reflexivity.
Qed.

(** Whatever the outcome, a rule's own timestamp moves only to [now], and
    only together with a delivered alert. *)
Lemma last_fired_moves_on_success (r : Rule) (i : Inputs) (now : Q) (w : World) :
  last_fired r (state (run_rule r i now w).2) = last_fired r (state w)
  ∨ ((run_rule r i now w).1 = Ok true ∧ next_delivery w = true
     ∧ fired r w (run_rule r i now w).2
     ∧ last_fired r (state (run_rule r i now w).2) = now).
Proof.
  destruct (rule_outcome r i now w) as [(_ & _ & Hsame)|(Hres & Hfired & _ & Hlast & _)].
  - left. apply Hsame.
  - destruct (next_delivery w) eqn:E; [right | left]; auto.
Qed.

(** C2.  For each of the four rules (spread, price above, price below,
    windowed change): when the rule last fired at [T0] and the cooldown is
    [C] seconds, an evaluation at [T0 + C - 1] sends nothing and leaves every
    last-fired timestamp as it was; an evaluation at [T0 + C] whose condition
    holds sends the rule's alert and returns what the delivery reports; and
    at any time a rule leaves the timestamps of the other rules alone. *)
Theorem cooldown_discipline (r : Rule) (i : Inputs) (w : World)
    (T0 : Q) (C : Z) (now_early now_due : Q) :
  last_fired r (state w) = T0 →
  cooldown_seconds (in_config i) = C →
  now_early == T0 + inject_Z C - 1 →
  now_due == T0 + inject_Z C →
  ((run_rule r i now_early w).1 ≠ Ok true
   ∧ silent w (run_rule r i now_early w).2
   ∧ ∀ r', last_fired r' (state (run_rule r i now_early w).2)
           = last_fired r' (state w))
  ∧ (condition r i now_due (state w) →
     (run_rule r i now_due w).1 = Ok (next_delivery w)
     ∧ fired r w (run_rule r i now_due w).2)
  ∧ (∀ now r', r' ≠ r →
       last_fired r' (state (run_rule r i now w).2) = last_fired r' (state w)).
Proof.
  intros HT0 HC Hearly Hdue. split; [|split].
  - destruct (rule_outcome r i now_early w) as [H|(_ & _ & Hcool & _)]; [exact H|].
    unfold cooldown_elapsed in Hcool. rewrite HT0, HC, Hearly in Hcool. lra.
  - intros Hcond. apply rule_fires; [exact Hcond|].
    unfold cooldown_elapsed. rewrite HT0, HC, Hdue. lra.
  - intros now r' Hne.
    destruct (rule_outcome r i now w) as [(_ & _ & H)|(_ & _ & _ & _ & H)]; auto.
Qed.

(** C3.  When a rule's condition and cooldown both pass, one alert is sent.
    If the delivery fails the evaluation returns [False], the rule's
    last-fired timestamp is unchanged and its cooldown is still elapsed at
    any later time; if the delivery succeeds the timestamp becomes [now]. *)
Theorem failed_delivery_keeps_cooldown (r : Rule) (i : Inputs) (now : Q)
    (w : World) :
  condition r i now (state w) →
  cooldown_elapsed r (in_config i) now (state w) →
  fired r w (run_rule r i now w).2
  ∧ (next_delivery w = false →
     (run_rule r i now w).1 = Ok false
     ∧ last_fired r (state (run_rule r i now w).2) = last_fired r (state w)
     ∧ ∀ later, now <= later →
         cooldown_elapsed r (in_config i) later (state (run_rule r i now w).2))
  ∧ (next_delivery w = true →
     (run_rule r i now w).1 = Ok true
     ∧ last_fired r (state (run_rule r i now w).2) = now).
Proof.
  intros Hcond Hcool.
  destruct (rule_fires r i now w Hcond Hcool) as [Hres Hfired].
  split; [exact Hfired|].
  destruct (last_fired_moves_on_success r i now w) as [Hsame|(Htrue & Hd & _ & Hnow)].
  - split; intros Hd; rewrite Hd in Hres.
    + split; [exact Hres|]. split; [exact Hsame|].
      intros later Hlater. unfold cooldown_elapsed in *. rewrite Hsame. lra.
    + split; [exact Hres|].
      destruct (rule_outcome r i now w) as [(Hno & _)|(_ & _ & _ & Hlast & _)];
        [congruence|].
      now rewrite Hd in Hlast.
  - split; intros Hd'; [congruence|]. split; assumption.
Qed.

Lemma cooldown_discipline_witness :
  (run_rule PriceAboveRule example_inputs 1299 (fired_world true)).1 ≠ Ok true
  ∧ (run_rule PriceAboveRule example_inputs 1300 (fired_world true)).1 = Ok true.
Proof.
  destruct (cooldown_discipline PriceAboveRule example_inputs (fired_world true)
              1000 300 1299 1300) as (Hearly & Hdue & _); try reflexivity.
  split; [apply Hearly|]. apply Hdue.
  exists 100000. repeat split. intros H; discriminate H.
Defined.

Lemma failed_delivery_keeps_cooldown_witness :
  (run_rule PriceAboveRule example_inputs 1300 (fired_world false)).1 = Ok false
  ∧ last_fired PriceAboveRule
      (state (run_rule PriceAboveRule example_inputs 1300 (fired_world false)).2)
    = 1000.
Proof.
  destruct (failed_delivery_keeps_cooldown PriceAboveRule example_inputs 1300
              (fired_world false)) as (_ & Hfail & _).
  - exists 100000. repeat split. intros H; discriminate H.
  - unfold cooldown_elapsed, Qle. simpl. lia.
  - destruct (Hfail eq_refl) as (Hres & Hlast & _). split; assumption.
Defined.

(** The scenarios of the specification: with a threshold of 0.3% the spread
    rule fires on a spread of 0.4%, with 0.5% it does not; the price-above
    rule fires at 100050 and not again at 100060 fifteen seconds later. *)
Lemma scenario_spread_rule :
  (check_spread_alert scenario_prices example_config 1000 "btc" "usd"
     (fresh_world true)).1 = Ok true
  ∧ check_spread_alert scenario_prices half_percent_config 1000 "btc" "usd"
      (fresh_world true)
    = (Ok false, fresh_world true).
Proof. split; reflexivity. Qed.

Lemma scenario_price_above :
  (check_price_threshold_alerts 100050 example_config 1000 "btc" "usd"
     (fresh_world true)).1 = Ok true
  ∧ (check_price_threshold_alerts 100060 example_config 1015 "btc" "usd"
       (check_price_threshold_alerts 100050 example_config 1000 "btc" "usd"
          (fresh_world true)).2)
    = (Ok false,
       (check_price_threshold_alerts 100050 example_config 1000 "btc" "usd"
          (fresh_world true)).2).
Proof. split; reflexivity. Qed.

(** ** The price history of the windowed-change rule *)

Lemma elem_of_trim_history (cutoff : Q) (h : list (Q * Q)) (tp : Q * Q) :
  tp ∈ trim_history cutoff h ↔ cutoff < tp.1 ∧ tp ∈ h.
Proof. unfold trim_history. now rewrite list_elem_of_filter, Qltb_lt. Qed.

Lemma trim_history_sublist (cutoff : Q) (h : list (Q * Q)) :
  trim_history cutoff h `sublist_of` h.
Proof. apply sublist_filter. Qed.

Lemma time_ordered_sublist (h h' : list (Q * Q)) :
  h' `sublist_of` h → time_ordered h → time_ordered h'.
Proof.
  unfold time_ordered. intros Hsub. induction Hsub as [|x l1 l2 Hsub IH|x l1 l2 Hsub IH].
  - auto.
  - rewrite !StronglySorted_cons. intros [Hall Hs]. split; [|auto].
    eapply Forall_impl; [|intros ? H; exact H].
    rewrite Forall_forall in *. intros y Hy. apply Hall.
    eapply sublist_subseteq; eauto.
  - rewrite StronglySorted_cons. intros [_ Hs]. auto.
Qed.

Lemma time_ordered_snoc (h : list (Q * Q)) (now price : Q) :
  time_ordered h → (∀ tp, tp ∈ h → tp.1 <= now) →
  time_ordered (h ++ [(now, price)]).
Proof.
  unfold time_ordered. intros Hs Hle. apply StronglySorted_app.
  split; [|split; [exact Hs|]].
  - intros x1 x2 H1 H2. apply list_elem_of_singleton in H2. subst. now apply Hle.
  - repeat constructor.
Qed.

(** The history is rewritten by every call, whatever the call returns. *)
Lemma history_after_call (avg_price : Q) (config : AlertConfig) (now : Q)
    (symbol currency : string) (w : World) :
  price_history (state (check_price_change_alert avg_price config now symbol currency w).2)
  = retained avg_price config now (state w).
Proof.
  unfold check_price_change_alert, retained. explore; reflexivity.
Qed.

(** What the rule sends when it fires on a baseline [p0]. *)
Lemma change_rule_on_baseline (avg_price : Q) (config : AlertConfig) (now : Q)
    (symbol currency : string) (w : World) (t0 p0 : Q) (rest : list (Q * Q)) :
  retained avg_price config now (state w) = (t0, p0) :: rest →
  rest ≠ [] → ¬ p0 == 0 →
  let change_pct := (avg_price - p0) / p0 * 100 in
  let w' := (check_price_change_alert avg_price config now symbol currency w).2 in
  (price_change_pct config <= Qabs change_pct
   ∧ cooldown_elapsed PriceChangeRule config now (state w) →
   outbox (bot w')
   = outbox (bot w)
       ++ [(PriceChangeAlert (upper symbol) change_pct p0 avg_price
              (price_change_window config `div` 60), next_delivery w)])
  ∧ (¬ (price_change_pct config <= Qabs change_pct
        ∧ cooldown_elapsed PriceChangeRule config now (state w)) →
     silent w w').
Proof.
  intros Hret Hrest Hne. unfold retained in Hret.
  unfold check_price_change_alert, cooldown_elapsed, silent, next_delivery.
  run_monad. rewrite Hret. destruct rest as [|x rest]; [congruence|].
  cbn [length Nat.ltb Nat.leb]. rewrite py_div_ok by exact Hne. run_monad.
  cbn [last_fired].
  destruct (Qltb (Qabs _) _) eqn:Ethr; run_monad.
  { apply Qltb_lt in Ethr. split; [intros [H _]; lra | reflexivity]. }
  apply Qltb_ge in Ethr.
  destruct (Qltb _ (inject_Z _)) eqn:Ecool; run_monad.
  { apply Qltb_lt in Ecool. split; [intros [_ H]; lra | reflexivity]. }
  apply Qltb_ge in Ecool.
  destruct (delivery _ _); run_monad; (split; [reflexivity | intros H; tauto]).
Qed.

(** With fewer than two retained samples the rule returns before any
    comparison. *)
Lemma change_rule_needs_two_samples (avg_price : Q) (config : AlertConfig)
    (now : Q) (symbol currency : string) (w : World) :
  (length (retained avg_price config now (state w)) < 2)%nat →
  check_price_change_alert avg_price config now symbol currency w
  = (Ok false,
     {| state := set_price_history (retained avg_price config now (state w))
                   (state w);
        bot := bot w; console := console w |}).
Proof.
  intros Hlen. apply Nat.ltb_lt in Hlen. unfold retained in *.
  unfold check_price_change_alert. run_monad. rewrite Hlen. reflexivity.
Qed.

(** A baseline price of zero makes the comparison raise, after the history
    has been rewritten. *)
Lemma change_rule_zero_baseline (avg_price : Q) (config : AlertConfig)
    (now : Q) (symbol currency : string) (w : World) (t0 p0 : Q)
    (rest : list (Q * Q)) :
  retained avg_price config now (state w) = (t0, p0) :: rest →
  rest ≠ [] → p0 == 0 →
  check_price_change_alert avg_price config now symbol currency w
  = (Raise ZeroDivisionError,
     {| state := set_price_history ((t0, p0) :: rest) (state w);
        bot := bot w; console := console w |}).
Proof.
  intros Hret Hrest Hz. unfold retained in Hret.
  unfold check_price_change_alert. run_monad. rewrite Hret.
  destruct rest as [|x rest]; [congruence|].
  cbn [length Nat.ltb Nat.leb]. rewrite py_div_zero by exact Hz. reflexivity.
Qed.

(** C4 (amended).  On every evaluation of the windowed-change rule the
    retained history is the old history plus the current sample, in order,
    without the entries whose timestamp is less than or equal to
    [now - window]: a sample taken exactly at the cutoff is dropped too.
    When at least two samples are retained and the first retained price is
    not zero, the rule sends its alert exactly when the change of the current
    price relative to that first retained price is at least the threshold in
    absolute value and the cooldown has elapsed. *)
Theorem windowed_change_rule (avg_price : Q) (config : AlertConfig) (now : Q)
    (symbol currency : string) (w : World) :
  let w' := (check_price_change_alert avg_price config now symbol currency w).2 in
  let appended := price_history (state w) ++ [(now, avg_price)] in
  let cutoff := now - inject_Z (price_change_window config) in
  price_history (state w') `sublist_of` appended
  ∧ (∀ tp, tp ∈ price_history (state w') ↔ tp ∈ appended ∧ ¬ tp.1 <= cutoff)
  ∧ (∀ t0 p0 rest,
       price_history (state w') = (t0, p0) :: rest → rest ≠ [] → ¬ p0 == 0 →
       fired PriceChangeRule w w'
       ↔ price_change_pct config <= Qabs ((avg_price - p0) / p0 * 100)
         ∧ cooldown_elapsed PriceChangeRule config now (state w)).
Proof.
  cbv zeta. rewrite history_after_call. unfold retained.
  split; [apply trim_history_sublist|]. split.
  - intros tp. rewrite elem_of_trim_history. split.
    + intros [Hlt Hin]. split; [exact Hin | lra].
    + intros [Hin Hnle]. split; [lra | exact Hin].
  - intros t0 p0 rest Hret Hrest Hne.
    destruct (change_rule_on_baseline avg_price config now symbol currency w
                t0 p0 rest Hret Hrest Hne) as [Hyes Hno].
    split.
    + intros (m & _ & Hout).
      destruct (Qlt_le_dec (Qabs ((avg_price - p0) / p0 * 100))
                  (price_change_pct config)) as [Hlt|Hle].
      { exfalso. unfold silent in Hno. rewrite Hno in Hout by lra.
        apply (f_equal length) in Hout. rewrite length_app in Hout.
        simpl in Hout. lia. }
      destruct (Qlt_le_dec (now - last_fired PriceChangeRule (state w))
                  (inject_Z (cooldown_seconds config))) as [Hlt|Hle'].
      { exfalso. unfold silent in Hno. rewrite Hno in Hout.
        - apply (f_equal length) in Hout. rewrite length_app in Hout.
          simpl in Hout. lia.
        - unfold cooldown_elapsed. lra. }
      split; assumption.
    + intros Hboth. eexists. split; [|apply Hyes; exact Hboth]. reflexivity.
Qed.

Lemma windowed_change_rule_witness :
  fired PriceChangeRule (sampled_world 100)
    (check_price_change_alert 103 example_config 200 "btc" "usd"
       (sampled_world 100)).2
  ↔ price_change_pct example_config <= Qabs ((103 - 100) / 100 * 100)
    ∧ cooldown_elapsed PriceChangeRule example_config 200
        (state (sampled_world 100)).
Proof.
  destruct (windowed_change_rule 103 example_config 200 "btc" "usd"
              (sampled_world 100)) as (_ & _ & H).
  refine (H 0 100 [(200, 103)] _ _ _).
  - reflexivity.
  - discriminate.
  - intros E. discriminate E.
Defined.

(** C4 (the claim as stated fails).  A sample taken at time 0 is in the
    history; at [now = 300] with a window of 300 seconds the cutoff is 0, so
    the sample is not strictly older than the cutoff, and yet the call drops
    it. *)
Lemma boundary_sample_dropped :
  (0, 100) ∈ price_history (state (sampled_world 100))
  ∧ ¬ (fst (0, 100) < 300 - inject_Z (price_change_window example_config))
  ∧ price_history
      (state (check_price_change_alert 100 example_config 300 "btc" "usd"
                (sampled_world 100)).2)
    = [(300, 100)].
Proof.
  split; [left|]. split; [|reflexivity].
  unfold Qlt. simpl. lia.
Qed.

(** C10 (amended).  Every call of [check_price_change_alert], whether or not
    an alert fires and whatever the delivery reports, appends the current
    sample and drops the entries with timestamp at most [now - window], so
    the retained history consists exactly of the samples with timestamp
    strictly greater than [now - window].  When the window is positive the
    history ends with the current sample.  When the old history was
    non-decreasing in time and the clock has not gone back, the new one is
    non-decreasing too. *)
Theorem history_after_every_call (avg_price : Q) (config : AlertConfig)
    (now : Q) (symbol currency : string) (w : World) :
  let h' := price_history
              (state (check_price_change_alert avg_price config now symbol
                        currency w).2) in
  let appended := price_history (state w) ++ [(now, avg_price)] in
  h' `sublist_of` appended
  ∧ (∀ tp, tp ∈ h'
           ↔ tp ∈ appended ∧ now - inject_Z (price_change_window config) < tp.1)
  ∧ ((0 < price_change_window config)%Z → last h' = Some (now, avg_price))
  ∧ (time_ordered (price_history (state w)) →
     (∀ tp, tp ∈ price_history (state w) → tp.1 <= now) →
     time_ordered h').
Proof.
  cbv zeta. rewrite history_after_call.
  unfold retained. split; [apply trim_history_sublist|]. split; [|split].
  - intros tp. rewrite elem_of_trim_history. tauto.
  - intros Hwin. unfold trim_history. rewrite filter_app, filter_singleton_True.
    + apply last_snoc.
    + exact [].
    + apply Qltb_lt. cbn [fst]. rewrite Zlt_Qlt in Hwin.
      change (inject_Z 0) with 0 in Hwin. lra.
  - intros Hsorted Hclock.
    eapply time_ordered_sublist; [apply trim_history_sublist|].
    now apply time_ordered_snoc.
Qed.

Lemma history_after_every_call_witness :
  last (price_history
          (state (check_price_change_alert 103 example_config 200 "btc" "usd"
                    (sampled_world 100)).2))
  = Some (200, 103)
  ∧ time_ordered
      (price_history
         (state (check_price_change_alert 103 example_config 200 "btc" "usd"
                   (sampled_world 100)).2)).
Proof.
  destruct (history_after_every_call 103 example_config 200 "btc" "usd"
              (sampled_world 100)) as (_ & _ & Hlast & Hordered).
  split.
  - apply Hlast. reflexivity.
  - apply Hordered.
    + repeat constructor.
    + intros tp Hin. apply list_elem_of_singleton in Hin. subst tp.
      unfold Qle. simpl. lia.
Defined.

(** A clock that steps back leaves the history out of order. *)
Lemma clock_step_back_breaks_order :
  price_history
    (state (check_price_change_alert 100 example_config 995 "btc" "usd"
              late_sample_world).2)
  = [(1000, 100); (995, 100)].
Proof. reflexivity. Qed.

(** C10 (the claim as stated fails).  With [--change-window 0] the sample
    appended by the call is trimmed away at once: after the call the history
    is empty and does not end with the current sample. *)
Lemma zero_window_drops_current_sample :
  price_history
    (state (check_price_change_alert 100 zero_window_config 1000 "btc" "usd"
              (fresh_world true)).2)
  = []
  ∧ last (price_history
            (state (check_price_change_alert 100 zero_window_config 1000 "btc"
                      "usd" (fresh_world true)).2))
    ≠ Some (1000, 100).
Proof. split; [reflexivity | discriminate]. Qed.

(** ** The status rule *)

Lemma arb_info_total (d : list (string * Q)) :
  (2 ≤ length d)%nat →
  ∃ lo hi, min_by_value d = Ok lo ∧ max_by_value d = Ok hi.
Proof. destruct d as [|kv rest]; simpl; [lia | eauto]. Qed.

(** C8 (amended).  The status rule looks at no price and no threshold.  It is
    disabled only when the interval is absent ([None]).  With any configured
    interval, zero included, it sends a status message exactly when the time
    elapsed since the last status update is at least the interval, and it
    records [now] when the message is delivered. *)
Theorem status_rule (prices : Prices) (avg_price spread_pct : Q)
    (config : AlertConfig) (now : Q) (symbol currency : string) (w : World) :
  let run := send_status_update prices avg_price spread_pct config now symbol
               currency w in
  match status_interval config with
  | None => run = (Ok false, w)
  | Some interval =>
      (inject_Z interval <= now - last_status_update (state w) →
       run.1 = Ok (next_delivery w)
       ∧ (∃ lines arb,
            outbox (bot run.2)
            = outbox (bot w)
                ++ [(StatusMessage (upper symbol) (upper currency) avg_price
                       spread_pct lines arb, next_delivery w)])
       ∧ last_status_update (state run.2)
         = (if next_delivery w then now else last_status_update (state w)))
      ∧ (now - last_status_update (state w) < inject_Z interval →
         run = (Ok false, w))
  end.
Proof.
  cbv zeta. unfold send_status_update, next_delivery.
  destruct (status_interval config) as [interval|]; [|reflexivity].
  run_monad. split.
  - intros Hdue. apply Qltb_ge in Hdue. rewrite Hdue.
    destruct (2 <=? length (valid_items prices))%nat eqn:Elen.
    + apply Nat.leb_le in Elen.
      destruct (arb_info_total _ Elen) as ([lo_k lo_v] & [hi_k hi_v] & -> & ->).
      run_monad. destruct (delivery _ _); run_monad; eauto.
    + run_monad. destruct (delivery _ _); run_monad; eauto.
  - intros Hearly. apply Qltb_lt in Hearly. now rewrite Hearly.
Qed.

Lemma status_rule_witness :
  (send_status_update scenario_prices 100000 (4 # 10) minute_interval_config
     1000 "btc" "usd" (fresh_world true)).1 = Ok true.
Proof.
  refine (proj1 (proj1 (status_rule scenario_prices 100000 (4 # 10)
                   minute_interval_config 1000 "btc" "usd" (fresh_world true)) _)).
  unfold Qle. simpl. lia.
Defined.

(** C8 (the claim as stated fails).  An interval of zero is not a sentinel:
    the rule sends on the first evaluation and again on the next one at the
    same instant. *)
Lemma zero_status_interval_fires :
  status_interval zero_interval_config = Some 0%Z
  ∧ (send_status_update scenario_prices 100000 (4 # 10) zero_interval_config
       1000 "btc" "usd" (fresh_world true)).1 = Ok true
  ∧ outbox (bot (send_status_update scenario_prices 100000 (4 # 10)
                   zero_interval_config 1000 "btc" "usd" (fresh_world true)).2)
    = [(StatusMessage "BTC" "USD" 100000 (4 # 10)
          [("CoinGecko"%string, 100000); ("Binance"%string, 100200);
           ("Coinbase"%string, 99800)]
          (Some ("Coinbase"%string, "Binance"%string)), true)]
  ∧ (send_status_update scenario_prices 100000 (4 # 10) zero_interval_config
       1000 "btc" "usd"
       (send_status_update scenario_prices 100000 (4 # 10) zero_interval_config
          1000 "btc" "usd" (fresh_world true)).2).1 = Ok true.
Proof. repeat split. Qed.

(** ** CSV rows and degenerate cycles *)

Ltac run_result :=
  unfold mbind, mret, result_bind, result_ret; cbv beta iota zeta.

Lemma stat_columns_app (front : Checker.Row) (avg spread pct : Checker.Cell) :
  stat_columns (front ++ [avg; spread; pct]) = Some (avg, spread, pct).
Proof. unfold stat_columns. now rewrite reverse_app. Qed.

(** The statistics of [append_to_csv], by number of valid prices. *)
Lemma csv_stats_cases (l : list Q) :
  match l with
  | [] => Checker.csv_stats l = Ok (None, None, None)
  | [p] => ∃ avg, Checker.csv_stats l = Ok (Some avg, None, None) ∧ avg == p
  | _ =>
      ∃ avg hi lo,
        mean l = Ok avg ∧ is_max l hi ∧ is_min l lo
        ∧ Checker.csv_stats l
          = Ok (Some avg, Some (hi - lo),
                if truthy (hi - lo) && truthy avg
                then Some ((hi - lo) / avg * 100) else None)
  end.
Proof.
  destruct l as [|p [|p' rest]].
  - reflexivity.
  - eexists. split; [reflexivity|]. unfold Qsum. simpl. field.
  - destruct (stats_inputs (p :: p' :: rest))
      as (hi & lo & Hhi & Hlo & Hmean & Hmax & Hmin); [simpl; lia|].
    remember (Qsum (p :: p' :: rest) / _) as avg eqn:Eavg. clear Eavg.
    exists avg, hi, lo. split; [exact Hmean|]. split; [exact Hmax|].
    split; [exact Hmin|].
    unfold Checker.csv_stats. rewrite Hmean, Hhi, Hlo.
    cbn [length Nat.leb]. run_result.
    destruct (truthy (hi - lo)) eqn:Es; [|reflexivity].
    destruct (truthy avg) eqn:Ea; [|reflexivity].
    cbn [andb]. apply truthy_nonzero in Ea. now rewrite py_div_ok.
Qed.

Lemma csv_stats_total (l : list Q) :
  ∃ avg spread pct, Checker.csv_stats l = Ok (avg, spread, pct).
Proof.
  pose proof (csv_stats_cases l) as H. destruct l as [|p [|p' rest]].
  - eauto.
  - destruct H as (avg & H & _). eauto.
  - destruct H as (avg & hi & lo & _ & _ & _ & H). eauto.
Qed.

(** [append_to_csv] always writes one row, whose last three cells format the
    three statistics. *)
Lemma append_to_csv_row (file : Checker.CsvFile)
    (timestamp symbol base_currency : string) (prices : Prices)
    (providers : list string) (avg spread pct : option Q) :
  Checker.csv_stats (valid_values prices) = Ok (avg, spread, pct) →
  ∃ row,
    Checker.append_to_csv file timestamp symbol base_currency prices providers
    = Ok (file ++ [row])
    ∧ stat_columns row
      = Some (Checker.stat_cell 8 avg, Checker.stat_cell 8 spread,
              Checker.stat_cell 4 pct).
Proof.
  intros Hstats. unfold Checker.append_to_csv, Checker.csv_row.
  rewrite Hstats. cbn. eexists. split; [reflexivity|].
  exact (stat_columns_app (_ :: _ :: _ :: _) _ _ _).
Qed.

Lemma stat_cell_zero (digits : nat) (x : option Q) (v : Q) :
  x = Some v → v == 0 → Checker.stat_cell digits x = Checker.blank.
Proof.
  intros -> Hv. unfold Checker.stat_cell. apply truthy_zero in Hv. now rewrite Hv.
Qed.

(** C9.  [append_to_csv] always writes a row.  A statistic whose value is zero
    is written as a blank cell: an average of 0 gives a blank [average]; a
    spread of 0 gives a blank [spread] and, the percentage then being [None],
    a blank [spread_pct]; in particular this happens when two or more
    providers return the same price.  The blank cell is the one written for
    an unavailable statistic. *)
Theorem csv_zero_statistics_blank (file : Checker.CsvFile)
    (timestamp symbol base_currency : string) (prices : Prices)
    (providers : list string) :
  ∃ row avg spread pct,
    Checker.append_to_csv file timestamp symbol base_currency prices providers
    = Ok (file ++ [row])
    ∧ Checker.csv_stats (valid_values prices) = Ok (avg, spread, pct)
    ∧ stat_columns row
      = Some (Checker.stat_cell 8 avg, Checker.stat_cell 8 spread,
              Checker.stat_cell 4 pct)
    ∧ (∀ a, avg = Some a → a == 0 → Checker.stat_cell 8 avg = Checker.blank)
    ∧ (∀ s, spread = Some s → s == 0 →
         Checker.stat_cell 8 spread = Checker.blank
         ∧ Checker.stat_cell 4 pct = Checker.blank)
    ∧ ((2 ≤ length (valid_values prices))%nat →
       (∀ x y, x ∈ valid_values prices → y ∈ valid_values prices → x == y) →
       Checker.stat_cell 8 spread = Checker.blank
       ∧ Checker.stat_cell 4 pct = Checker.blank)
    ∧ (∀ digits, Checker.stat_cell digits None = Checker.blank).
Proof.
  destruct (csv_stats_total (valid_values prices)) as (avg & spread & pct & Hstats).
  destruct (append_to_csv_row file timestamp symbol base_currency prices
              providers avg spread pct Hstats) as (row & Hrow & Hcols).
  exists row, avg, spread, pct.
  split; [exact Hrow|]. split; [exact Hstats|]. split; [exact Hcols|].
  split; [intros a Ha Hz; eapply stat_cell_zero; eauto|].
  assert (Hspread : ∀ s, spread = Some s → s == 0 →
            Checker.stat_cell 8 spread = Checker.blank
            ∧ Checker.stat_cell 4 pct = Checker.blank).
  { intros s Hs Hz. split; [eapply stat_cell_zero; eauto|].
    pose proof (csv_stats_cases (valid_values prices)) as Hcases.
    destruct (valid_values prices) as [|p [|p' rest]].
    - rewrite Hcases in Hstats. congruence.
    - destruct Hcases as (a & Hc & _). rewrite Hc in Hstats. congruence.
    - destruct Hcases as (a & hi & lo & _ & _ & _ & Hc). rewrite Hc in Hstats.
      injection Hstats as _ Hsp Hpct. rewrite Hs in Hsp. injection Hsp as Hsp.
      subst pct. rewrite Hsp. apply truthy_zero in Hz. rewrite Hz. reflexivity. }
  split; [exact Hspread|]. split; [|reflexivity].
  intros Hlen Hsame.
  pose proof (csv_stats_cases (valid_values prices)) as Hcases.
  destruct (valid_values prices) as [|p [|p' rest]] eqn:El;
    [simpl in Hlen; lia | simpl in Hlen; lia |].
  destruct Hcases as (a & hi & lo & _ & [Hhi _] & [Hlo _] & Hc).
  rewrite Hc in Hstats. injection Hstats as _ Hsp _.
  apply (Hspread (hi - lo)); [congruence|].
  rewrite (Hsame hi lo Hhi Hlo). lra.
Qed.

Lemma csv_zero_statistics_blank_witness :
  ∃ row avg,
    Checker.append_to_csv [] "2024-01-01 12:00:00" "btc" "usd" identical_prices
      ["CoinGecko"; "Binance"; "Coinbase"]%string
    = Ok [row]
    ∧ stat_columns row = Some (avg, Checker.blank, Checker.blank).
Proof.
  destruct (csv_zero_statistics_blank [] "2024-01-01 12:00:00" "btc" "usd"
              identical_prices ["CoinGecko"; "Binance"; "Coinbase"]%string)
    as (row & avg & spread & pct & Hrow & _ & Hcols & _ & _ & Hsame & _).
  exists row, (Checker.stat_cell 8 avg). split; [exact Hrow|].
  destruct Hsame as [Hs Hp].
  - simpl. lia.
  - intros x y Hx Hy.
    assert (Hall : ∀ z, z ∈ valid_values identical_prices → z = 100).
    { intros z Hz. cbn in Hz. apply elem_of_cons in Hz as [->|Hz]; [reflexivity|].
      apply list_elem_of_singleton in Hz. exact Hz. }
    rewrite (Hall x Hx), (Hall y Hy). reflexivity.
  - rewrite Hcols, Hs, Hp. reflexivity.
Defined.

(** A cycle of [run_continuous_monitoring] never raises; it appends a row
    only when the cycle has data. *)
Lemma monitoring_cycle_rows (symbol base_currency : string)
    (providers provider_names : list string) (file : Checker.CsvFile)
    (c : string * Prices) :
  ∃ line file',
    Checker.monitoring_cycle symbol base_currency providers provider_names file c
    = Ok (line, file')
    ∧ length file' = (length file + if has_data c then 1 else 0)%nat.
Proof.
  destruct c as [ts prices]. unfold Checker.monitoring_cycle, has_data. cbn [snd].
  destruct (csv_stats_total (valid_values prices)) as (avg & spread & pct & Hstats).
  destruct (append_to_csv_row file ts symbol base_currency prices provider_names
              avg spread pct Hstats) as (row & Hrow & _).
  destruct (valid_values prices) as [|p rest] eqn:E.
  - eexists _, _. split; [reflexivity|]. lia.
  - rewrite <- E, mean_total by (rewrite E; simpl; lia). run_result.
    rewrite Hrow. eexists _, _. split; [reflexivity|].
    rewrite length_app. reflexivity.
Qed.

(** Over a whole session the CSV file grows by one row per cycle that had at
    least one valid price, and by nothing for the others. *)
Lemma monitoring_loop_rows (symbol base_currency : string)
    (providers provider_names : list string) (cycles : list (string * Prices)) :
  ∀ file, ∃ lines file',
    Checker.monitoring_loop symbol base_currency providers provider_names file cycles
    = Ok (lines, file')
    ∧ length lines = length cycles
    ∧ length file'
      = (length file + length (filter (λ c, has_data c = true) cycles))%nat.
Proof.
  induction cycles as [|c rest IH]; intros file.
  - eexists _, _. split; [reflexivity|]. split; [reflexivity|]. simpl. lia.
  - destruct (monitoring_cycle_rows symbol base_currency providers provider_names
                file c) as (line & file1 & Hc & Hlen1).
    destruct (IH file1) as (lines & file2 & Hrest & Hlines & Hlen2).
    cbn [Checker.monitoring_loop]. rewrite Hc. run_result. rewrite Hrest.
    eexists _, _. split; [reflexivity|]. split; [simpl; lia|].
    rewrite Hlen2, Hlen1, filter_cons.
    destruct (has_data c); simpl; lia.
Qed.

(** C5 (amended).  With no valid price the three statistics of
    [append_to_csv] are all [None], but nothing is recorded for the cycle:
    the loop of [run_continuous_monitoring] prints "No data received" and
    leaves the CSV file as it is, and the loop of [run_alert_monitor] prints
    the same and evaluates no rule, so the alert state and the bot are
    untouched. *)
Theorem no_valid_prices (prices : Prices) :
  valid_values prices = [] →
  Checker.csv_stats (valid_values prices) = Ok (None, None, None)
  ∧ (∀ symbol base_currency providers provider_names file timestamp,
       Checker.monitoring_cycle symbol base_currency providers provider_names
         file (timestamp, prices)
       = Ok (Checker.NoDataReceived, file))
  ∧ (∀ symbol base_currency config ts t1 t2 t3 t4 alerts_sent w,
       alert_cycle symbol base_currency config
         {| timestamp := ts; fetched := prices; t_spread := t1;
            t_threshold := t2; t_change := t3; t_status := t4 |} alerts_sent w
       = (Ok alerts_sent,
          {| state := state w; bot := bot w;
             console := console w ++ [NoDataReceived ts] |})).
Proof.
  intros Hnone. split; [|split].
  - rewrite Hnone. reflexivity.
  - intros. unfold Checker.monitoring_cycle. rewrite Hnone. reflexivity.
  - intros. unfold alert_cycle. cbn [fetched timestamp]. rewrite Hnone. reflexivity.
Qed.

Lemma no_valid_prices_witness :
  Checker.monitoring_cycle "btc" "usd" ["coingecko"; "binance"; "coinbase"]%string
    ["CoinGecko"; "Binance"; "Coinbase"]%string [] ("2024-01-01 12:00:00"%string, no_prices)
  = Ok (Checker.NoDataReceived, []).
Proof.
  refine (proj1 (proj2 (no_valid_prices no_prices _)) _ _ _ _ _ _). reflexivity.
Defined.

(** C5 (the claim as stated fails).  A monitoring session whose only cycle
    has no valid price ends with a CSV file that holds the header and no
    row; the alert monitor leaves its state, price history included, as it
    was. *)
Lemma no_data_cycle_not_recorded :
  valid_values no_prices = []
  ∧ Checker.run_continuous_monitoring "btc" "usd" None None
      [("2024-01-01 12:00:00"%string, no_prices)]
    = Ok ([Checker.NoDataReceived],
          [Checker.csv_header ["CoinGecko"; "Binance"; "Coinbase"]%string])
  ∧ state (alert_cycle "btc" "usd" example_config (example_cycle no_prices) 0
             (fresh_world true)).2
    = initial_state
  ∧ outbox (bot (alert_cycle "btc" "usd" example_config (example_cycle no_prices) 0
             (fresh_world true)).2)
    = [].
Proof. repeat split. Qed.

(** C6 (amended).  With exactly one valid price [p]: [append_to_csv]
    computes an average equal to [p] and no spread, and writes the [spread]
    and [spread_pct] cells blank; [display_results] prints neither average
    nor spread; [run_alert_monitor] computes an average equal to [p] and a
    spread percent that is the number 0; [check_spread_alert] sends
    nothing. *)
Theorem single_valid_price (prices : Prices) (p : Q) :
  valid_values prices = [p] →
  (∃ avg, Checker.csv_stats (valid_values prices) = Ok (Some avg, None, None)
          ∧ avg == p)
  ∧ (∀ file timestamp symbol base_currency providers,
       ∃ row avg,
         Checker.append_to_csv file timestamp symbol base_currency prices providers
         = Ok (file ++ [row])
         ∧ stat_columns row
           = Some (Checker.stat_cell 8 (Some avg), Checker.blank, Checker.blank)
         ∧ avg == p)
  ∧ (∀ symbol base_currency timestamp,
       Checker.display_results symbol base_currency prices timestamp
       = Ok (Checker.Header (upper symbol) (upper base_currency) timestamp
               :: (Checker.provider_line <$> prices)
               ++ [Checker.OnlyOneProvider]))
  ∧ (∃ avg, monitor_stats (valid_values prices) = Ok (avg, 0) ∧ avg == p)
  ∧ (∀ config now symbol currency w,
       check_spread_alert prices config now symbol currency w = (Ok false, w)).
Proof.
  intros Hone.
  assert (Hcsv : ∃ avg, Checker.csv_stats (valid_values prices)
                        = Ok (Some avg, None, None) ∧ avg == p).
  { rewrite Hone. exact (csv_stats_cases [p]). }
  split; [exact Hcsv|]. split; [|split; [|split]].
  - intros file ts symbol base_currency providers.
    destruct Hcsv as (avg & Hstats & Havg).
    destruct (append_to_csv_row file ts symbol base_currency prices
                providers _ _ _ Hstats) as (row & Hrow & Hcols).
    exists row, avg. auto.
  - intros. unfold Checker.display_results. rewrite Hone. reflexivity.
  - rewrite Hone. eexists. split; [reflexivity|]. unfold Qsum. simpl. field.
  - intros. unfold check_spread_alert.
    assert (Hl : length (valid_items prices) = 1%nat).
    { now rewrite <- (length_fmap snd), valid_items_values, Hone. }
    rewrite Hl. reflexivity.
Qed.

Lemma single_valid_price_witness :
  ∃ avg, monitor_stats (valid_values single_prices) = Ok (avg, 0) ∧ avg == 100000.
Proof.
  refine (proj1 (proj2 (proj2 (proj2 (single_valid_price single_prices 100000 _))))).
  reflexivity.
Defined.

(** C6 (the claim as stated fails).  In the alert monitor a single valid
    price gives a spread percent of 0, not an absent one: that 0 is printed
    on the console line of the cycle and goes out in the status message. *)
Lemma single_price_spread_pct_is_zero :
  valid_values single_prices = [100000]
  ∧ monitor_stats (valid_values single_prices) = Ok (100000, 0)
  ∧ console (alert_cycle "btc" "usd" example_config (example_cycle single_prices)
               0 (fresh_world true)).2
    = [CycleStatus "12:00:00" 100000 0 0; EndOfLine]
  ∧ (send_status_update single_prices 100000 0 minute_interval_config 1000
       "btc" "usd" (fresh_world true)).2.(bot).(outbox)
    = [(StatusMessage "BTC" "USD" 100000 0 [("CoinGecko"%string, 100000)] None,
        true)].
Proof. repeat split. Qed.

(** ** Symbol and quote normalization *)

(** C7 (amended).  In [crypto_price_checker.py] normalization never fails.
    A symbol that is not in the CoinGecko table is sent as it is, lowercased,
    and a price that CoinGecko returns under that identifier is the result of
    the fetch.  A quote currency that is not in the Binance table is replaced
    by the default suffix [USDT], and the price of that pair is the result of
    the fetch. *)
Theorem unknown_symbol_and_quote_fall_back (symbol base_currency : string) :
  (Checker.COINGECKO_SYMBOL_MAP !! lower symbol = None →
   Checker.coingecko_coin_id symbol = lower symbol
   ∧ ∀ request price,
       request (Checker.coingecko_url symbol base_currency)
       = Some {[ lower symbol := {[ lower base_currency := price ]} ]} →
       Checker.fetch_coingecko request symbol base_currency
       = (Some price, "CoinGecko"%string))
  ∧ (Checker.BINANCE_QUOTE_MAP !! lower base_currency = None →
     Checker.binance_pair symbol base_currency = (upper symbol +:+ "USDT")%string
     ∧ ∀ request float_of_string text price,
         request (Checker.binance_url symbol base_currency)
         = Some {[ "price"%string := text ]} →
         float_of_string text = Some price →
         Checker.fetch_binance request float_of_string symbol base_currency
         = (Some price, "Binance"%string)).
Proof.
  split.
  - intros Hnone.
    assert (Hid : Checker.coingecko_coin_id symbol = lower symbol).
    { unfold Checker.coingecko_coin_id. now rewrite Hnone. }
    split; [exact Hid|].
    intros request price Hreq. unfold Checker.fetch_coingecko.
    rewrite Hreq, Hid, lookup_singleton_eq, lookup_singleton_eq. reflexivity.
  - intros Hnone. split.
    + unfold Checker.binance_pair, Checker.binance_quote. now rewrite Hnone.
    + intros request float_of_string text price Hreq Hfloat.
      unfold Checker.fetch_binance.
      rewrite Hreq, lookup_singleton_eq, Hfloat. reflexivity.
Qed.

Lemma unknown_symbol_and_quote_fall_back_witness :
  Checker.coingecko_coin_id "pepe" = "pepe"%string
  ∧ Checker.binance_pair "btc" "jpy" = "BTCUSDT"%string.
Proof.
  destruct (unknown_symbol_and_quote_fall_back "pepe" "jpy") as [Hsym _].
  destruct (unknown_symbol_and_quote_fall_back "btc" "jpy") as [_ Hquote].
  split.
  - apply Hsym. reflexivity.
  - apply Hquote. reflexivity.
Defined.

(** C7 (the claim as stated fails).  ["pepe"] is not in the CoinGecko table,
    yet the request goes out for the identifier ["pepe"] and its answer is
    returned as the price; ["jpy"] is not in the Binance table, yet the pair
    requested is [BTCUSDT]. *)
Lemma unknown_symbol_is_requested :
  Checker.COINGECKO_SYMBOL_MAP !! lower "pepe" = None
  ∧ Checker.fetch_coingecko
      (λ url, if String.eqb url "https://api.coingecko.com/api/v3/simple/price?ids=pepe&vs_currencies=usd"
              then Some {[ "pepe"%string := {[ "usd"%string := 1 ]} ]} else None)
      "pepe" "usd"
    = (Some 1, "CoinGecko"%string)
  ∧ Checker.BINANCE_QUOTE_MAP !! lower "jpy" = None
  ∧ Checker.binance_url "btc" "jpy"
    = "https://api.binance.com/api/v3/ticker/price?symbol=BTCUSDT"%string.
Proof. repeat split. Qed.

(** [crypto_price_cli.py] is the one place that rejects: there an unknown
    symbol or base yields a null price together with a reason. *)
Lemma cli_rejects_unknown (symbol base : string) :
  (Cli.gecko_id_for_symbol symbol = None →
   ∀ get, Cli.fetch_coingecko get symbol base
          = (None, Some "CoinGecko does not recognize symbol"%string))
  ∧ (Cli.binance_pair symbol base = None →
     ∀ get float_of_string,
       Cli.fetch_binance get float_of_string symbol base
       = (None, Some "Binance unsupported base"%string)).
Proof.
  split.
  - intros H get. unfold Cli.fetch_coingecko. now rewrite H.
  - intros H get fl. unfold Cli.fetch_binance. now rewrite H.
Qed.

Lemma cli_rejects_pepe_and_jpy :
  Cli.gecko_id_for_symbol "pepe" = None ∧ Cli.binance_pair "btc" "jpy" = None.
Proof. split; reflexivity. Qed.

(** * Further properties of the code *)

(** ** Case-insensitive names *)

Lemma ascii_lower_idem (c : ascii) : ascii_lower (ascii_lower c) = ascii_lower c.
Proof. destruct c as [[] [] [] [] [] [] [] []]; reflexivity. Qed.

Lemma ascii_lower_upper (c : ascii) : ascii_lower (ascii_upper c) = ascii_lower c.
Proof. destruct c as [[] [] [] [] [] [] [] []]; reflexivity. Qed.

Lemma lower_idem (s : string) : lower (lower s) = lower s.
Proof. induction s as [|c s IH]; simpl; [reflexivity|]. now rewrite ascii_lower_idem, IH. Qed.

Lemma lower_capitalize (s : string) : lower (capitalize s) = lower s.
Proof.
  destruct s as [|c s]; simpl; [reflexivity|].
  now rewrite ascii_lower_upper, lower_idem.
Qed.

Lemma lower_provider_display_name (p : string) :
  lower (Checker.provider_display_name p) = lower p.
Proof.
  unfold Checker.provider_display_name.
  destruct (String.eqb p "coingecko") eqn:E.
  - apply String.eqb_eq in E. subst p. reflexivity.
  - apply lower_capitalize.
Qed.

(** ** Dictionary updates and the column lookup *)

Lemma find_price_dict_set_ne (d : Prices) (k k' : string) (v : option Q) :
  lower k ≠ lower k' →
  Checker.find_price (dict_set d k v) k' = Checker.find_price d k'.
Proof.
  intros Hne. induction d as [|[k0 v0] rest IH]; simpl.
  - destruct (String.eqb_spec (lower k) (lower k')); [contradiction | reflexivity].
  - destruct (String.eqb_spec k0 k) as [->|Hk]; simpl.
    + destruct (String.eqb_spec (lower k) (lower k')); [contradiction | reflexivity].
    + now rewrite IH.
Qed.

Lemma find_price_dict_set_eq (d : Prices) (k k' : string) (v : option Q) :
  (∀ key, key ∈ d.*1 → lower key = lower k → key = k) →
  lower k = lower k' →
  Checker.find_price (dict_set d k v) k' = v.
Proof.
  intros Hinj Heq. induction d as [|[k0 v0] rest IH]; simpl.
  - rewrite Heq, String.eqb_refl. reflexivity.
  - destruct (String.eqb_spec k0 k) as [->|Hk]; simpl.
    + rewrite Heq, String.eqb_refl. reflexivity.
    + destruct (String.eqb_spec (lower k0) (lower k')) as [E|E].
      * exfalso. apply Hk, Hinj; [left | congruence].
      * apply IH. intros key Hkey. apply Hinj. now right.
Qed.

Lemma find_price_same_name (d : Prices) (k k' : string) :
  lower k = lower k' → Checker.find_price d k = Checker.find_price d k'.
Proof.
  intros E. induction d as [|[k0 v0] d IH]; simpl; [reflexivity|].
  now rewrite E, IH.
Qed.

Lemma dict_set_keys (d : Prices) (k : string) (v : option Q) (key : string) :
  key ∈ (dict_set d k v).*1 → key = k ∨ key ∈ d.*1.
Proof.
  induction d as [|[k0 v0] rest IH]; simpl.
  - intros H. apply list_elem_of_singleton in H. now left.
  - destruct (String.eqb_spec k0 k) as [->|Hk]; simpl; intros H.
    + right. exact H.
    + apply elem_of_cons in H as [->|H]; [right; left|].
      destruct (IH H) as [->|Hin]; [now left | right; now right].
Qed.

(** X1.  The case-insensitive column lookup of [append_to_csv] returns, for
    every entry of a price dictionary whose keys stay distinct when case is
    ignored, the value stored under that key (a failed provider's [None]
    included). *)
Theorem find_price_lookup (d : Prices) (k : string) (v : option Q) :
  NoDup (lower <$> d.*1) → (k, v) ∈ d → Checker.find_price d k = v.
Proof.
  induction d as [|[k0 v0] rest IH]; intros Hnd Hin.
  - inversion Hin.
  - cbn in Hnd. apply NoDup_cons in Hnd as [Hfresh Hnd]. simpl.
    apply elem_of_cons in Hin as [[= -> ->]|Hin].
    + now rewrite String.eqb_refl.
    + destruct (String.eqb_spec (lower k0) (lower k)) as [E|E]; [|auto].
      exfalso. apply Hfresh. rewrite E.
      apply list_elem_of_fmap. exists k. split; [reflexivity|].
      apply list_elem_of_fmap. exists (k, v). split; [reflexivity | exact Hin].
Qed.

Lemma find_price_lookup_witness :
  Checker.find_price scenario_prices "Binance" = Some 100200.
Proof.
  apply (find_price_lookup scenario_prices "Binance" (Some 100200)).
  - apply (bool_decide_unpack _). vm_compute. exact I.
  - right. left.
Defined.

(** ** From the adapters to the CSV columns *)

Lemma lookup_after_three {A} (a b c : A) (mid tail : list A) (i : nat) (x : A) :
  mid !! i = Some x → ([a; b; c] ++ mid ++ tail) !! (3 + i)%nat = Some x.
Proof. intros H. simpl. now apply lookup_app_l_Some. Qed.


Lemma provider_names_lower_inj (a b : string) :
  a ∈ provider_names → b ∈ provider_names → lower a = lower b → a = b.
Proof.
  unfold provider_names. rewrite !elem_of_cons, !elem_of_nil.
  intros Ha Hb.
  destruct Ha as [->|[->|[->|[->|[]]]]], Hb as [->|[->|[->|[->|[]]]]];
    first [reflexivity | intros H; vm_compute in H; discriminate H].
Qed.

Lemma find_price_absent (d : Prices) (k : string) :
  (∀ key, key ∈ d.*1 → lower key ≠ lower k) → Checker.find_price d k = None.
Proof.
  induction d as [|[k0 v0] d IH]; intros H; simpl; [reflexivity|].
  destruct (String.eqb_spec (lower k0) (lower k)) as [E|_].
  - exfalso. apply (H k0); [left | exact E].
  - apply IH. intros key Hkey. apply H. now right.
Qed.

Lemma provider_names_known (key : string) :
  key ∈ provider_names →
  lower key ∈ ["coingecko"; "binance"; "coinbase"; "kraken"]%string.
Proof.
  unfold provider_names. rewrite !elem_of_cons, !elem_of_nil.
  intros [->|[->|[->|[->|[]]]]]; cbn; tauto.
Qed.

Section Aggregation.
Variable coingecko_request : string → option (gmap string (gmap string Q)).
Variable binance_request : string → option (gmap string string).
Variable coinbase_request : string → option (gmap string (gmap string string)).
Variable kraken_request :
  string → option (gmap string (list (string * gmap string (list string)))).
Variable float_of_string : string → option Q.
Variable symbol base_currency : string.

Abbreviation all_providers :=
  (Checker.all_providers coingecko_request binance_request coinbase_request
     kraken_request float_of_string).
Abbreviation fetch_loop :=
  (Checker.fetch_loop coingecko_request binance_request coinbase_request
     kraken_request float_of_string symbol base_currency).

(** Every adapter answers under its own name, which is its identifier up to
    case. *)
Lemma adapter_name (id : string) (fetch_func : string → string → option Q * string) :
  all_providers id = Some fetch_func →
  (fetch_func symbol base_currency).2 ∈ provider_names
  ∧ lower (fetch_func symbol base_currency).2 = id.
Proof.
  assert (Hin : ∀ name, name ∈ provider_names
                        ↔ name = "CoinGecko"%string ∨ name = "Binance"%string
                          ∨ name = "Coinbase"%string ∨ name = "Kraken"%string).
  { intros name. unfold provider_names.
    rewrite !elem_of_cons, elem_of_nil. tauto. }
  unfold Checker.all_providers.
  destruct (String.eqb_spec id "coingecko") as [->|_].
  { intros [= <-]. unfold Checker.fetch_coingecko.
    destruct (coingecko_request _) as [data|]; [|rewrite Hin; auto].
    destruct (data !! _) as [entry|]; [|rewrite Hin; auto].
    destruct (entry !! _); rewrite Hin; auto. }
  destruct (String.eqb_spec id "binance") as [->|_].
  { intros [= <-]. unfold Checker.fetch_binance.
    destruct (binance_request _) as [data|]; [|rewrite Hin; auto].
    destruct (data !! _) as [s|]; [|rewrite Hin; auto].
    destruct (float_of_string s); rewrite Hin; auto. }
  destruct (String.eqb_spec id "coinbase") as [->|_].
  { intros [= <-]. unfold Checker.fetch_coinbase.
    destruct (coinbase_request _) as [data|]; [|rewrite Hin; auto].
    destruct (data !! _) as [inner|]; [|rewrite Hin; auto].
    destruct (inner !! _) as [s|]; [|rewrite Hin; auto].
    destruct (float_of_string s); rewrite Hin; auto. }
  destruct (String.eqb_spec id "kraken") as [->|_]; [|discriminate].
  intros [= <-]. unfold Checker.fetch_kraken.
  destruct (kraken_request _) as [data|]; [|rewrite Hin; auto].
  destruct (data !! _); rewrite Hin; auto 6.
Qed.

Lemma fetch_loop_columns (n : nat) (delay : Q) (providers : list string) :
  ∀ (i : nat) (results : Prices) (sleeps : nat),
    (∀ key, key ∈ results.*1 → key ∈ provider_names) →
    let res := (fetch_loop n delay i providers results sleeps).1 in
    (∀ key, key ∈ res.*1 → key ∈ provider_names)
    ∧ (∀ p fetch_func,
         p ∈ providers → all_providers (lower p) = Some fetch_func →
         Checker.find_price res (Checker.provider_display_name p)
         = (fetch_func symbol base_currency).1)
    ∧ (∀ k', lower k' ∉ lower <$> providers →
             Checker.find_price res k' = Checker.find_price results k').
Proof.
  induction providers as [|q rest IH]; intros i results sleeps Hkeys; cbn zeta.
  - split; [exact Hkeys|]. split; [|reflexivity].
    intros p f Hp. inversion Hp.
  - cbn [Checker.fetch_loop].
    destruct (all_providers (lower q)) as [fq|] eqn:Eq.
    + destruct (adapter_name _ _ Eq) as [Hname Hlow].
      destruct (fq symbol base_currency) as [price name] eqn:Efq.
      cbn [snd] in Hname, Hlow.
      set (results1 := dict_set results name price).
      assert (Hkeys1 : ∀ key, key ∈ results1.*1 → key ∈ provider_names).
      { intros key Hk. apply dict_set_keys in Hk as [->|Hk]; auto. }
      destruct (IH (S i) results1
                  (if (i <? n - 1)%nat && Qltb 0 delay then S sleeps else sleeps)
                  Hkeys1) as (Hk & Hcol & Hframe).
      split; [exact Hk|]. split.
      * intros p f Hp Hf. apply elem_of_cons in Hp as [->|Hp]; [|eauto].
        rewrite Eq in Hf. injection Hf as <-. rewrite Efq. cbn [fst].
        destruct (decide (lower q ∈ lower <$> rest)) as [Hin|Hout].
        -- apply list_elem_of_fmap in Hin as (q' & Hq' & Hin).
           rewrite (find_price_same_name _ _ (Checker.provider_display_name q'))
             by (now rewrite !lower_provider_display_name).
           rewrite (Hcol q' fq Hin); [now rewrite Efq|].
           now rewrite <- Hq'.
        -- rewrite Hframe by (now rewrite lower_provider_display_name).
           apply find_price_dict_set_eq.
           ++ intros key Hkey Hl. apply provider_names_lower_inj; auto.
           ++ now rewrite lower_provider_display_name.
      * intros k' Hk'. rewrite Hframe.
        -- apply find_price_dict_set_ne. rewrite Hlow.
           intros E. apply Hk'. rewrite <- E. cbn. left.
        -- intros Hin. apply Hk'. cbn. now right.
    + destruct (IH (S i) results sleeps Hkeys) as (Hk & Hcol & Hframe).
      split; [exact Hk|]. split.
      * intros p f Hp Hf. apply elem_of_cons in Hp as [->|Hp]; [congruence | eauto].
      * intros k' Hk'. apply Hframe. intros Hin. apply Hk'. cbn. now right.
Qed.

(** X2.  What an adapter returns reaches the CSV column of its provider: for
    the provider at position [i] of the requested list, the header of the log
    carries its display name in column [3 + i] and the row built from the
    fetched prices carries in that column the very price the adapter
    returned (blank when it returned [None]), whatever the order of the
    providers and however their names are capitalized. *)
Theorem fetched_price_reaches_its_column (providers : list string) (delay : Q)
    (timestamp : string) (i : nat) (p : string)
    (fetch_func : string → string → option Q * string) :
  providers !! i = Some p →
  all_providers (lower p) = Some fetch_func →
  let prices :=
    (Checker.fetch_all_prices coingecko_request binance_request
       coinbase_request kraken_request float_of_string symbol base_currency
       (Some providers) delay).1 in
  let names := Checker.provider_display_name <$> providers in
  ∃ row,
    Checker.csv_row timestamp symbol base_currency prices names = Ok row
    ∧ Checker.csv_header names !! (3 + i)%nat
      = Some (Checker.Text (Checker.provider_display_name p))
    ∧ row !! (3 + i)%nat
      = Some (Checker.price_cell (fetch_func symbol base_currency).1).
Proof.
  intros Hi Hf. cbv zeta. unfold Checker.fetch_all_prices.
  change (default _ (Some providers)) with providers.
  destruct (fetch_loop_columns (length providers) delay providers 0 [] 0)
    as (_ & Hcol & _).
  { intros key Hkey. inversion Hkey. }
  specialize (Hcol p fetch_func (list_elem_of_lookup_2 _ _ _ Hi) Hf).
  revert Hcol.
  generalize (fetch_loop (length providers) delay 0 providers [] 0).1.
  intros prices Hcol. unfold Checker.csv_row.
  destruct (csv_stats_total (valid_values prices)) as (avg & spread & pct & ->).
  eexists. split; [reflexivity|]. split.
  - unfold Checker.csv_header.
    refine (eq_trans (list_lookup_fmap _ _ _) _).
    erewrite lookup_after_three; [reflexivity|].
    now rewrite list_lookup_fmap, Hi.
  - apply lookup_after_three.
    rewrite !list_lookup_fmap, Hi. cbn. now rewrite Hcol.
Qed.
Lemma all_providers_unknown (id : string) :
  all_providers id = None →
  id ∉ ["coingecko"; "binance"; "coinbase"; "kraken"]%string.
Proof.
  unfold Checker.all_providers. rewrite !elem_of_cons, !elem_of_nil.
  destruct (String.eqb_spec id "coingecko"); [discriminate|].
  destruct (String.eqb_spec id "binance"); [discriminate|].
  destruct (String.eqb_spec id "coinbase"); [discriminate|].
  destruct (String.eqb_spec id "kraken"); [discriminate|].
  tauto.
Qed.

(** X3.  A requested provider that is not one of the four adapters is
    skipped by the fetch, yet it keeps its column in the CSV log, and that
    column is blank in the row. *)
Theorem unknown_provider_column_is_blank (providers : list string) (delay : Q)
    (timestamp : string) (i : nat) (p : string) :
  providers !! i = Some p →
  all_providers (lower p) = None →
  let prices :=
    (Checker.fetch_all_prices coingecko_request binance_request
       coinbase_request kraken_request float_of_string symbol base_currency
       (Some providers) delay).1 in
  let names := Checker.provider_display_name <$> providers in
  ∃ row,
    Checker.csv_row timestamp symbol base_currency prices names = Ok row
    ∧ Checker.csv_header names !! (3 + i)%nat
      = Some (Checker.Text (Checker.provider_display_name p))
    ∧ row !! (3 + i)%nat = Some Checker.blank.
Proof.
  intros Hi Hf. cbv zeta. unfold Checker.fetch_all_prices.
  change (default _ (Some providers)) with providers.
  destruct (fetch_loop_columns (length providers) delay providers 0 [] 0)
    as (Hkeys & _ & _).
  { intros key Hkey. inversion Hkey. }
  revert Hkeys.
  generalize (fetch_loop (length providers) delay 0 providers [] 0).1.
  intros prices Hkeys. unfold Checker.csv_row.
  destruct (csv_stats_total (valid_values prices)) as (avg & spread & pct & ->).
  eexists. split; [reflexivity|]. split.
  - unfold Checker.csv_header.
    refine (eq_trans (list_lookup_fmap _ _ _) _).
    erewrite lookup_after_three; [reflexivity|].
    now rewrite list_lookup_fmap, Hi.
  - apply lookup_after_three.
    rewrite !list_lookup_fmap, Hi. cbn.
    rewrite find_price_absent; [reflexivity|].
    intros key Hkey E. rewrite lower_provider_display_name in E.
    apply (all_providers_unknown _ Hf). rewrite <- E.
    now apply provider_names_known, Hkeys.
Qed.


End Aggregation.

Lemma fetched_price_reaches_its_column_witness :
  ∃ row,
    Checker.csv_row "2025-01-01 12:00:00" "btc" "usd"
      (Checker.fetch_all_prices no_answer binance_only no_answer no_answer
         example_float "btc" "usd" (Some ["coingecko"; "Binance"]%string)
         (1 # 10)).1
      (Checker.provider_display_name <$> ["coingecko"; "Binance"]%string)
    = Ok row
    ∧ row !! 4%nat = Some (Checker.Float 100200).
Proof.
  destruct (fetched_price_reaches_its_column no_answer binance_only no_answer
              no_answer example_float "btc" "usd"
              ["coingecko"; "Binance"]%string (1 # 10) "2025-01-01 12:00:00"
              1 "Binance" (Checker.fetch_binance binance_only example_float)
              eq_refl eq_refl)
    as (row & Hrow & _ & Hcell).
  exists row. split; [exact Hrow | exact Hcell].
Defined.

Lemma unknown_provider_column_is_blank_witness :
  ∃ row,
    Checker.csv_row "2025-01-01 12:00:00" "btc" "usd"
      (Checker.fetch_all_prices no_answer binance_only no_answer no_answer
         example_float "btc" "usd" (Some ["binance"; "bitstamp"]%string)
         (1 # 10)).1
      (Checker.provider_display_name <$> ["binance"; "bitstamp"]%string)
    = Ok row
    ∧ row !! 4%nat = Some Checker.blank.
Proof.
  destruct (unknown_provider_column_is_blank no_answer binance_only no_answer
              no_answer example_float "btc" "usd"
              ["binance"; "bitstamp"]%string (1 # 10) "2025-01-01 12:00:00"
              1 "bitstamp" eq_refl eq_refl)
    as (row & Hrow & _ & Hcell).
  exists row. split; [exact Hrow | exact Hcell].
Defined.


(** ** The shape of the CSV log *)

Lemma csv_row_length (timestamp symbol base_currency : string) (prices : Prices)
    (providers : list string) :
  ∃ row,
    Checker.csv_row timestamp symbol base_currency prices providers = Ok row
    ∧ length row = length (Checker.csv_header providers).
Proof.
  unfold Checker.csv_row, Checker.csv_header.
  destruct (csv_stats_total (valid_values prices)) as (avg & spread & pct & ->).
  eexists. split; [reflexivity|].
  rewrite length_fmap, !length_app, !length_fmap. reflexivity.
Qed.

Lemma monitoring_cycle_appends (symbol base_currency : string)
    (providers provider_names : list string) (file : Checker.CsvFile)
    (c : string * Prices) :
  ∃ line rows,
    Checker.monitoring_cycle symbol base_currency providers provider_names file c
    = Ok (line, file ++ rows)
    ∧ length rows = (if has_data c then 1 else 0)%nat
    ∧ Forall (λ row, length row = length (Checker.csv_header provider_names)) rows.
Proof.
  destruct c as [ts prices]. unfold Checker.monitoring_cycle, has_data. cbn [snd].
  destruct (csv_row_length ts symbol base_currency prices provider_names)
    as (row & Hrow & Hwidth).
  destruct (valid_values prices) as [|p l] eqn:E.
  - exists Checker.NoDataReceived, []. rewrite app_nil_r.
    split; [reflexivity|]. split; [reflexivity | constructor].
  - rewrite <- E, mean_total by (rewrite E; simpl; lia).
    unfold Checker.append_to_csv. rewrite Hrow. run_result.
    eexists _, [row]. split; [reflexivity|]. split; [reflexivity|].
    repeat constructor. exact Hwidth.
Qed.

Lemma monitoring_loop_appends (symbol base_currency : string)
    (providers provider_names : list string) (cycles : list (string * Prices)) :
  ∀ file, ∃ lines rows,
    Checker.monitoring_loop symbol base_currency providers provider_names file cycles
    = Ok (lines, file ++ rows)
    ∧ length rows = length (filter (λ c, has_data c = true) cycles)
    ∧ Forall (λ row, length row = length (Checker.csv_header provider_names)) rows.
Proof.
  induction cycles as [|c rest IH]; intros file.
  - exists [], []. rewrite app_nil_r. repeat split. constructor.
  - destruct (monitoring_cycle_appends symbol base_currency providers
                provider_names file c) as (line & rows1 & Hc & Hlen1 & Hall1).
    destruct (IH (file ++ rows1)) as (lines & rows & Hrest & Hlen & Hall).
    cbn [Checker.monitoring_loop]. rewrite Hc. run_result. rewrite Hrest.
    exists (line :: lines), (rows1 ++ rows).
    split; [now rewrite app_assoc|]. split.
    + rewrite length_app, Hlen1, Hlen, filter_cons.
      destruct (has_data c); simpl; lia.
    + apply Forall_app. split; assumption.
Qed.

(** X5.  Continuous monitoring always runs to the end of its cycles, prints
    one line per cycle and only ever appends to the CSV log: the file that
    was there (or, for a new file, the header) is kept as it is, one row is
    added for each cycle in which some provider answered and none for the
    others, and every added row is as wide as the header. *)
Theorem csv_log_is_rectangular_and_append_only (symbol base_currency : string)
    (providers : option (list string)) (file : option Checker.CsvFile)
    (cycles : list (string * Prices)) :
  let names :=
    Checker.provider_display_name
      <$> default ["coingecko"; "binance"; "coinbase"]%string providers in
  ∃ lines rows,
    Checker.run_continuous_monitoring symbol base_currency providers file cycles
    = Ok (lines, default [Checker.csv_header names] file ++ rows)
    ∧ length lines = length cycles
    ∧ length rows = length (filter (λ c, has_data c = true) cycles)
    ∧ Forall (λ row, length row = length (Checker.csv_header names)) rows.
Proof.
  cbv zeta. unfold Checker.run_continuous_monitoring.
  set (ps := default _ providers). set (names := _ <$> ps).
  destruct (monitoring_loop_appends symbol base_currency ps names cycles
              (Checker.init_csv_file file names))
    as (lines & rows & Hloop & Hlen & Hall).
  destruct (monitoring_loop_rows symbol base_currency ps names cycles
              (Checker.init_csv_file file names))
    as (lines' & file' & Hloop' & Hlines & _).
  rewrite Hloop in Hloop'. injection Hloop' as <- <-.
  exists lines, rows. split; [|auto].
  rewrite Hloop. destruct file; reflexivity.
Qed.

(** ** Display and CSV statistics *)

(** X6.  On two or more valid prices the console display and the CSV row
    compute the same average and spread.  The spread percent of the row is
    the displayed one when the average is positive and the spread is not
    zero; when the spread is zero the row leaves it blank where the display
    shows zero. *)
Theorem display_and_csv_statistics_agree (l : list Q) :
  (2 ≤ length l)%nat →
  ∃ avg spread pct csv_pct,
    Checker.display_stats l = Ok (avg, spread, pct)
    ∧ Checker.csv_stats l = Ok (Some avg, Some spread, csv_pct)
    ∧ (0 < avg → ¬ spread == 0 → csv_pct = Some pct)
    ∧ (spread == 0 → csv_pct = None ∧ pct == 0).
Proof.
  intros Hlen.
  destruct (stats_inputs l Hlen) as (hi & lo & Hhi & Hlo & Hmean & _ & _).
  destruct l as [|x [|y rest]]; [simpl in Hlen; lia | simpl in Hlen; lia |].
  remember (Qsum (x :: y :: rest) / _) as avg eqn:Eavg. clear Eavg.
  unfold Checker.display_stats, Checker.csv_stats.
  rewrite Hmean, Hhi, Hlo. cbn [length Nat.leb]. run_result.
  destruct (Qltb 0 avg) eqn:Epos.
  - apply Qltb_lt in Epos.
    assert (Hne : ¬ avg == 0) by lra.
    rewrite py_div_ok by exact Hne. run_result.
    destruct (truthy (hi - lo)) eqn:Es.
    + apply truthy_nonzero in Hne. rewrite Hne. cbn [andb].
      eexists _, _, _, _. split; [reflexivity|]. split; [reflexivity|].
      split; [reflexivity|]. intros Hz. apply truthy_nonzero in Es. contradiction.
    + cbn [andb]. eexists _, _, _, _. split; [reflexivity|]. split; [reflexivity|].
      apply truthy_zero in Es. split; [intros _ H; contradiction|].
      intros _. split; [reflexivity|]. rewrite Es. field. exact Hne.
  - apply Qltb_ge in Epos.
    destruct (truthy (hi - lo) && truthy avg) eqn:Eb.
    + apply andb_true_iff in Eb as [Es Ea].
      apply truthy_nonzero in Ea. apply truthy_nonzero in Es.
      rewrite py_div_ok by exact Ea. run_result.
      eexists _, _, _, _. split; [reflexivity|]. split; [reflexivity|].
      split; [intros H; lra|]. intros Hz. contradiction.
    + eexists _, _, _, _. split; [reflexivity|]. split; [reflexivity|].
      split; [intros H; lra|]. intros _. split; reflexivity.
Qed.

Lemma display_and_csv_statistics_agree_witness :
  ∃ avg spread pct csv_pct,
    Checker.display_stats (valid_values scenario_prices) = Ok (avg, spread, pct)
    ∧ Checker.csv_stats (valid_values scenario_prices)
      = Ok (Some avg, Some spread, csv_pct).
Proof.
  destruct (display_and_csv_statistics_agree (valid_values scenario_prices))
    as (avg & spread & pct & csv_pct & Hd & Hc & _).
  { simpl. lia. }
  exists avg, spread, pct, csv_pct. split; [exact Hd | exact Hc].
Defined.

(** ** The JSON average *)

Lemma any_price_truthy_values (prices : Prices) :
  Checker.any_price prices = true ↔ Checker.truthy_values prices ≠ [].
Proof.
  unfold Checker.any_price, Checker.truthy_values.
  induction prices as [|[k [p|]] rest IH]; simpl.
  - split; [discriminate | congruence].
  - destruct (truthy p); simpl; [split; [discriminate | reflexivity] | exact IH].
  - exact IH.
Qed.

Lemma truthy_values_all_nonzero (prices : Prices) :
  (∀ x, x ∈ valid_values prices → ¬ x == 0) →
  Checker.truthy_values prices = valid_values prices.
Proof.
  unfold Checker.truthy_values, valid_values.
  induction prices as [|[k [p|]] rest IH]; intros Hnz; simpl.
  - reflexivity.
  - assert (Hp : truthy p = true) by (apply truthy_nonzero, Hnz; left).
    rewrite Hp. f_equal. apply IH. intros x Hx. apply Hnz. now right.
  - apply IH. exact Hnz.
Qed.

(** X7.  The JSON output always has an average entry: it is [null] exactly
    when no provider returned a price other than zero, and otherwise the mean
    of the prices other than zero, so the division never fails.  It is the
    average column of the CSV row whenever no valid price is zero. *)
Theorem json_average_ignores_zero_prices (prices : Prices) :
  ∃ average,
    Checker.json_average prices = Ok average
    ∧ (average = None ↔ Checker.truthy_values prices = [])
    ∧ (∀ a, average = Some a →
            mean (Checker.truthy_values prices) = Ok a)
    ∧ ((∀ x, x ∈ valid_values prices → ¬ x == 0) →
       ∃ spread pct,
         Checker.csv_stats (valid_values prices) = Ok (average, spread, pct)).
Proof.
  unfold Checker.json_average.
  destruct (Checker.any_price prices) eqn:Eany.
  - apply any_price_truthy_values in Eany.
    destruct (Checker.truthy_values prices) as [|p l] eqn:E; [congruence|].
    rewrite mean_total by (simpl; lia). run_result.
    eexists. split; [reflexivity|]. split; [split; discriminate|].
    split; [intros a [= <-]; reflexivity|].
    intros Hnz. rewrite <- (truthy_values_all_nonzero prices Hnz), E.
    pose proof (csv_stats_cases (p :: l)) as Hc.
    destruct l as [|p' l].
    + destruct Hc as (avg & Hc & _).
      unfold Checker.csv_stats in Hc |- *. simpl in Hc |- *. eauto.
    + destruct Hc as (avg & hi & lo & Hmean & _ & _ & Hc).
      rewrite mean_total in Hmean by (simpl; lia). injection Hmean as <-.
      rewrite Hc. eauto.
  - assert (E : Checker.truthy_values prices = []).
    { destruct (Checker.truthy_values prices) eqn:E; [reflexivity|].
      assert (H : Checker.any_price prices = true)
        by (apply any_price_truthy_values; congruence).
      congruence. }
    exists None. split; [reflexivity|]. split; [tauto|].
    split; [discriminate|].
    intros Hnz. rewrite <- (truthy_values_all_nonzero prices Hnz), E. eauto.
Qed.

(** A price of zero counts for the CSV average and not for the JSON one. *)
Lemma json_average_differs_on_zero :
  Checker.json_average [("CoinGecko"%string, Some 100); ("Binance"%string, Some 0)]
  = Ok (Some 100)
  ∧ ∃ avg spread pct,
      Checker.csv_stats
        (valid_values [("CoinGecko"%string, Some 100); ("Binance"%string, Some 0)])
      = Ok (Some avg, spread, pct)
      ∧ avg == 50.
Proof. split; [reflexivity|]. eexists _, _, _. split; reflexivity. Qed.

Lemma json_average_ignores_zero_prices_witness :
  ∃ average spread pct,
    Checker.json_average scenario_prices = Ok average
    ∧ Checker.csv_stats (valid_values scenario_prices)
      = Ok (average, spread, pct).
Proof.
  destruct (json_average_ignores_zero_prices scenario_prices)
    as (average & Hjson & _ & _ & Hcsv).
  destruct Hcsv as (spread & pct & Hcsv).
  { intros x Hx. cbn in Hx. rewrite !elem_of_cons, elem_of_nil in Hx.
    destruct Hx as [->|[->|[->|[]]]]; discriminate. }
  exists average, spread, pct. split; [exact Hjson | exact Hcsv].
Defined.

(** ** Symbol tables *)

(** Case analysis on a successful lookup in a table given as a literal. *)
Ltac table_cases H :=
  apply elem_of_list_to_map_2 in H;
  rewrite ?elem_of_cons, elem_of_nil in H;
  repeat (destruct H as [H|H]); try contradiction;
  injection H as ? ?; subst.

Lemma checker_slugs_are_fixed (key slug : string) :
  Checker.COINGECKO_SYMBOL_MAP !! key = Some slug →
  Checker.coingecko_coin_id slug = slug.
Proof.
  unfold Checker.COINGECKO_SYMBOL_MAP. intros H. table_cases H; reflexivity.
Qed.

(** X8.  The CoinGecko identifier computed by the checker is a fixed point
    of the normalization: a symbol and the identifier it was mapped to are
    requested under the same identifier, so a user may pass either. *)
Theorem coingecko_coin_id_idempotent (symbol : string) :
  Checker.coingecko_coin_id (Checker.coingecko_coin_id symbol)
  = Checker.coingecko_coin_id symbol.
Proof.
  unfold Checker.coingecko_coin_id at 2 3.
  destruct (Checker.COINGECKO_SYMBOL_MAP !! lower symbol) as [slug|] eqn:E.
  - cbn. eapply checker_slugs_are_fixed, E.
  - cbn. unfold Checker.coingecko_coin_id. now rewrite lower_idem, E.
Qed.

(** X9.  The alert bot and the checker ask CoinGecko for the same identifier
    exactly when the symbol is, case ignored, none of [atom], [xlm], [algo]
    and [ftm], the four entries that only the checker's table has. *)
Theorem bot_and_checker_coin_ids (symbol : string) :
  AlertPrices.coingecko_coin_id symbol = Checker.coingecko_coin_id symbol
  ↔ lower symbol ∉ ["atom"; "xlm"; "algo"; "ftm"]%string.
Proof.
  unfold AlertPrices.coingecko_coin_id, Checker.coingecko_coin_id. split.
  { intros Heq Hin. rewrite !elem_of_cons, elem_of_nil in Hin.
    destruct Hin as [H|[H|[H|[H|[]]]]]; rewrite H in Heq;
      vm_compute in Heq; discriminate Heq. }
  intros Hout.
  destruct (AlertPrices.COINGECKO_SYMBOL_MAP !! lower symbol) as [a|] eqn:Ea.
  - unfold AlertPrices.COINGECKO_SYMBOL_MAP in Ea. table_cases Ea;
      match goal with H : lower symbol = _ |- _ => rewrite H end; reflexivity.
  - destruct (Checker.COINGECKO_SYMBOL_MAP !! lower symbol) as [b|] eqn:Eb;
      [|reflexivity].
    unfold Checker.COINGECKO_SYMBOL_MAP in Eb. table_cases Eb;
      match goal with
      | H : lower symbol = _ |- _ => rewrite H in *
      end;
      first [ reflexivity
            | discriminate Ea
            | exfalso; apply Hout; rewrite !elem_of_cons; tauto ].
Qed.

Lemma bot_and_checker_coin_ids_witness :
  AlertPrices.coingecko_coin_id "BTC" = Checker.coingecko_coin_id "BTC".
Proof.
  apply (bot_and_checker_coin_ids "BTC").
  apply (bool_decide_unpack _). vm_compute. exact I.
Defined.

(** X10.  The bot and the checker request the same Binance pair exactly
    when the quote currency is, case ignored, neither [usdc] nor [busd], and
    the same Coinbase pair exactly when it is neither [usdt] nor [usdc]:
    for those the bot falls back to its default quote. *)
Theorem bot_and_checker_pairs (symbol base_currency : string) :
  (AlertPrices.binance_pair symbol base_currency
   = Checker.binance_pair symbol base_currency
   ↔ lower base_currency ∉ ["usdc"; "busd"]%string)
  ∧ (AlertPrices.coinbase_pair symbol base_currency
     = Checker.coinbase_pair symbol base_currency
     ↔ lower base_currency ∉ ["usdt"; "usdc"]%string).
Proof.
  split; split.
  - unfold AlertPrices.binance_pair, Checker.binance_pair, Checker.binance_quote.
    intros Heq Hin. apply (inj (String.app _)) in Heq.
    rewrite !elem_of_cons, elem_of_nil in Hin.
    destruct Hin as [H|[H|[]]]; rewrite H in Heq;
      vm_compute in Heq; discriminate Heq.
  - intros Hout.
    unfold AlertPrices.binance_pair, Checker.binance_pair, Checker.binance_quote.
    f_equal.
    destruct (AlertPrices.BINANCE_QUOTE_MAP !! lower base_currency) as [a|] eqn:Ea.
    + unfold AlertPrices.BINANCE_QUOTE_MAP in Ea. table_cases Ea;
        match goal with H : lower base_currency = _ |- _ => rewrite H end;
        reflexivity.
    + destruct (Checker.BINANCE_QUOTE_MAP !! lower base_currency) as [b|] eqn:Eb;
        [|reflexivity].
      unfold Checker.BINANCE_QUOTE_MAP in Eb. table_cases Eb;
        match goal with H : lower base_currency = _ |- _ => rewrite H in * end;
        first [ reflexivity | discriminate Ea
              | exfalso; apply Hout; rewrite !elem_of_cons; tauto ].
  - unfold AlertPrices.coinbase_pair, Checker.coinbase_pair, Checker.coinbase_quote.
    intros Heq Hin. do 2 apply (inj (String.app _)) in Heq.
    rewrite !elem_of_cons, elem_of_nil in Hin.
    destruct Hin as [H|[H|[]]]; rewrite H in Heq;
      vm_compute in Heq; discriminate Heq.
  - intros Hout.
    unfold AlertPrices.coinbase_pair, Checker.coinbase_pair, Checker.coinbase_quote.
    do 2 f_equal.
    destruct (AlertPrices.COINBASE_QUOTE_MAP !! lower base_currency) as [a|] eqn:Ea.
    + unfold AlertPrices.COINBASE_QUOTE_MAP in Ea. table_cases Ea;
        match goal with H : lower base_currency = _ |- _ => rewrite H end;
        reflexivity.
    + destruct (Checker.COINBASE_QUOTE_MAP !! lower base_currency) as [b|] eqn:Eb;
        [|reflexivity].
      unfold Checker.COINBASE_QUOTE_MAP in Eb. table_cases Eb;
        match goal with H : lower base_currency = _ |- _ => rewrite H in * end;
        first [ reflexivity | discriminate Ea
              | exfalso; apply Hout; rewrite !elem_of_cons; tauto ].
Qed.

Lemma bot_and_checker_pairs_witness :
  AlertPrices.binance_pair "btc" "USD" = Checker.binance_pair "btc" "USD"
  ∧ AlertPrices.coinbase_pair "btc" "eur" = Checker.coinbase_pair "btc" "eur".
Proof.
  split.
  - apply (bot_and_checker_pairs "btc" "USD").
    apply (bool_decide_unpack _). vm_compute. exact I.
  - apply (bot_and_checker_pairs "btc" "eur").
    apply (bool_decide_unpack _). vm_compute. exact I.
Defined.

(** ** The Kraken adapter *)

Section Kraken.
Variable float_of_string : string → option Q.

(** X11.  The Kraken adapter returns the last-trade price of the first entry
    of the answer that has one [float()] can read; entries without a ["c"]
    field, with an empty one, or with one that is no number are passed over,
    and the result is [None] only when every entry is of that kind. *)
Theorem kraken_skips_malformed_entries
    (items : list (string * gmap string (list string))) :
  match Checker.kraken_last_trade float_of_string items with
  | Some price =>
      ∃ i entry,
        items !! i = Some entry ∧ kraken_entry_price float_of_string entry price
        ∧ ∀ j earlier p, (j < i)%nat → items !! j = Some earlier →
                         ¬ kraken_entry_price float_of_string earlier p
  | None => ∀ entry p, entry ∈ items → ¬ kraken_entry_price float_of_string entry p
  end.
Proof.
  unfold kraken_entry_price.
  induction items as [|[k value] rest IH]; cbn [Checker.kraken_last_trade].
  - intros entry p H. inversion H.
  - assert (Hstep :
      (∀ p, ¬ kraken_entry_price float_of_string (k, value) p) →
      match Checker.kraken_last_trade float_of_string rest with
      | Some price =>
          ∃ i entry,
            ((k, value) :: rest) !! i = Some entry
            ∧ kraken_entry_price float_of_string entry price
            ∧ ∀ j earlier p, (j < i)%nat → ((k, value) :: rest) !! j = Some earlier →
                             ¬ kraken_entry_price float_of_string earlier p
      | None => ∀ entry p, entry ∈ (k, value) :: rest → ¬ kraken_entry_price float_of_string entry p
      end).
    { intros Hbad. destruct (Checker.kraken_last_trade float_of_string rest).
      - destruct IH as (i & entry & Hi & Hp & Hbefore).
        exists (S i), entry. split; [exact Hi|]. split; [exact Hp|].
        intros [|j] earlier p Hj Hlook.
        + injection Hlook as <-. apply Hbad.
        + eapply Hbefore; [|exact Hlook]. lia.
      - intros entry p Hin. apply elem_of_cons in Hin as [->|Hin]; [apply Hbad|].
        now apply IH. }
    unfold kraken_entry_price in Hstep.
    destruct (value !! "c"%string) as [[|s more]|] eqn:Ec.
    + apply Hstep. intros p (s & more & H & _). cbn in H. congruence.
    + destruct (float_of_string s) as [price|] eqn:Ef.
      * exists 0%nat, (k, value). split; [reflexivity|].
        split; [eauto|]. intros j earlier p Hj. lia.
      * apply Hstep. intros p (s' & more' & H & Hf). cbn in H. congruence.
    + apply Hstep. intros p (s & more & H & _). cbn in H. congruence.
Qed.
End Kraken.

Lemma kraken_skips_malformed_entries_witness :
  ∃ i entry,
    kraken_items !! i = Some entry
    ∧ kraken_entry_price example_float entry 100200
    ∧ ∀ p, ¬ kraken_entry_price example_float ("XXBTZUSD"%string, {[ "c"%string := [] ]}) p.
Proof.
  pose proof (kraken_skips_malformed_entries example_float kraken_items) as H.
  simpl in H. destruct H as (i & entry & Hi & Hp & Hbefore).
  exists i, entry. split; [exact Hi|]. split; [exact Hp|].
  destruct i as [|i]; [injection Hi as <-; destruct Hp as (s & rest & Hc & _);
                       discriminate Hc|].
  intros p. apply (Hbefore 0%nat); [lia | reflexivity].
Defined.

(** ** The normalizers of the command-line client *)

(** X12.  What the command-line client accepts is normalized: an accepted
    symbol yields a CoinGecko identifier of its table, and that identifier
    is accepted in turn and mapped to itself; an accepted Binance pair is
    the upper-cased symbol followed by one of the quote assets the client
    knows. *)
Theorem cli_normalization (symbol base : string) :
  (∀ sid, Cli.gecko_id_for_symbol symbol = Some sid →
          sid ∈ (map_to_list Cli.gecko_table).*2
          ∧ Cli.gecko_id_for_symbol sid = Some sid)
  ∧ (∀ pair_, Cli.binance_pair symbol base = Some pair_ →
              ∃ b, b ∈ Cli.binance_bases ∧ pair_ = (upper symbol +:+ b)%string).
Proof.
  split.
  - intros sid. unfold Cli.gecko_id_for_symbol at 1.
    destruct (Cli.gecko_table !! symbol) as [slug|] eqn:E.
    + intros [= <-]. unfold Cli.gecko_table in E. table_cases E;
        (split; [apply (bool_decide_unpack _); vm_compute; exact I | reflexivity]).
    + destruct (bool_decide _) eqn:Ed; [|discriminate].
      intros [= <-]. split; [now apply bool_decide_eq_true in Ed|].
      unfold Cli.gecko_id_for_symbol. now rewrite E, Ed.
  - intros pair_. unfold Cli.binance_pair.
    destruct (bool_decide _) eqn:Ed; [|discriminate].
    intros [= <-]. apply bool_decide_eq_true in Ed. eauto.
Qed.

Lemma cli_normalization_witness :
  ("bitcoin"%string ∈ (map_to_list Cli.gecko_table).*2
   ∧ Cli.gecko_id_for_symbol "bitcoin" = Some "bitcoin"%string)
  ∧ ∃ b, b ∈ Cli.binance_bases ∧ "BTCUSDT"%string = ("BTC" +:+ b)%string.
Proof.
  destruct (cli_normalization "btc" "usdt") as [Hid Hpair]. split.
  - apply (Hid "bitcoin"%string). reflexivity.
  - apply (Hpair "BTCUSDT"%string). reflexivity.
Defined.

(** ** What the spread alert says *)

Lemma min_from_spec (l : list (string * Q)) :
  ∀ best, min_from best l ∈ best :: l
          ∧ ∀ kv, kv ∈ best :: l → (min_from best l).2 <= kv.2.
Proof.
  induction l as [|x l IH]; intros best; cbn [min_from].
  - split; [left|]. intros kv H. apply list_elem_of_singleton in H. subst. apply Qle_refl.
  - destruct (Qltb x.2 best.2) eqn:E.
    + apply Qltb_lt in E. destruct (IH x) as [Hin Hle]. split.
      * now right.
      * intros kv Hkv. apply elem_of_cons in Hkv as [->|Hkv]; [|now apply Hle].
        eapply Qle_trans; [apply Hle; left|]. now apply Qlt_le_weak.
    + apply Qltb_ge in E. destruct (IH best) as [Hin Hle]. split.
      * apply elem_of_cons in Hin as [->|Hin]; [left | right; now right].
      * intros kv Hkv. apply elem_of_cons in Hkv as [->|Hkv]; [apply Hle; left|].
        apply elem_of_cons in Hkv as [->|Hkv].
        -- eapply Qle_trans; [apply Hle; left | exact E].
        -- apply Hle. now right.
Qed.

Lemma max_from_spec (l : list (string * Q)) :
  ∀ best, max_from best l ∈ best :: l
          ∧ ∀ kv, kv ∈ best :: l → kv.2 <= (max_from best l).2.
Proof.
  induction l as [|x l IH]; intros best; cbn [max_from].
  - split; [left|]. intros kv H. apply list_elem_of_singleton in H. subst. apply Qle_refl.
  - destruct (Qltb best.2 x.2) eqn:E.
    + apply Qltb_lt in E. destruct (IH x) as [Hin Hle]. split.
      * now right.
      * intros kv Hkv. apply elem_of_cons in Hkv as [->|Hkv]; [|now apply Hle].
        eapply Qle_trans; [|apply Hle; left]. now apply Qlt_le_weak.
    + apply Qltb_ge in E. destruct (IH best) as [Hin Hle]. split.
      * apply elem_of_cons in Hin as [->|Hin]; [left | right; now right].
      * intros kv Hkv. apply elem_of_cons in Hkv as [->|Hkv]; [apply Hle; left|].
        apply elem_of_cons in Hkv as [->|Hkv].
        -- eapply Qle_trans; [exact E | apply Hle; left].
        -- apply Hle. now right.
Qed.

Lemma spread_stats_inv (l : list Q) (spread avg pct : Q) :
  spread_stats l = Ok (spread, avg, pct) →
  ∃ hi lo, is_max l hi ∧ is_min l lo ∧ spread = hi - lo
           ∧ mean l = Ok avg ∧ ¬ avg == 0 ∧ pct = spread / avg * 100.
Proof.
  unfold spread_stats.
  destruct (py_max l) as [hi|] eqn:Ehi; [|discriminate].
  destruct (py_min l) as [lo|] eqn:Elo; [|discriminate].
  destruct (mean l) as [a|] eqn:Ea; [|discriminate].
  run_result. unfold py_div.
  destruct (Qeq_bool a 0) eqn:Ez; [discriminate|].
  intros [= <- <- <-]. exists hi, lo.
  repeat split; try apply (py_max_spec _ _ Ehi); try apply (py_min_spec _ _ Elo).
  intros H. apply Qeq_bool_iff in H. congruence.
Qed.

Ltac outbox_unchanged H :=
  exfalso; apply (f_equal length) in H; rewrite length_app in H;
  simpl in H; lia.

(** X13.  Whatever spread alert the bot sends is true to the prices it was
    computed from: it lists exactly the valid prices, the exchange it names
    as the place to buy holds a least price and the one to sell a greatest
    one, the spread is their difference, the percentage is that spread over
    a non-zero average, at or above the threshold, and the quoted profit is
    the percentage less 0.2 points of fees, taken on the average. *)
Theorem spread_alert_names_cheapest_and_dearest (prices : Prices)
    (config : AlertConfig) (now : Q) (symbol currency : string) (w : World)
    (sym cur min_exchange max_exchange : string)
    (pct min_price max_price spread profit : Q) (all_prices : list (string * Q))
    (ok : bool) :
  outbox (bot (check_spread_alert prices config now symbol currency w).2)
  = outbox (bot w)
      ++ [(SpreadAlert sym cur pct min_exchange min_price max_exchange
             max_price spread profit all_prices, ok)] →
  all_prices = valid_items prices
  ∧ (min_exchange, min_price) ∈ valid_items prices
  ∧ (max_exchange, max_price) ∈ valid_items prices
  ∧ (∀ kv, kv ∈ valid_items prices → min_price <= kv.2 ∧ kv.2 <= max_price)
  ∧ spread == max_price - min_price
  ∧ spread_threshold config <= pct
  ∧ ∃ avg, mean (valid_values prices) = Ok avg ∧ ¬ avg == 0
           ∧ pct == spread / avg * 100
           ∧ profit == (pct - (2 # 10)) / 100 * avg.
Proof.
  unfold check_spread_alert. rewrite valid_items_values.
  destruct (length (valid_items prices) <? 2)%nat eqn:Elen; run_monad;
    [intros H; outbox_unchanged H|].
  destruct (spread_stats (valid_values prices)) as [[[spread' avg] pct']|e] eqn:Es;
    run_monad; [|intros H; outbox_unchanged H].
  destruct (Qltb pct' (spread_threshold config)) eqn:Ethr; run_monad;
    [intros H; outbox_unchanged H|].
  destruct (Qltb _ (inject_Z _)) eqn:Ecool; run_monad;
    [intros H; outbox_unchanged H|].
  destruct (valid_items prices) as [|kv rest] eqn:Eitems; [discriminate Elen|].
  cbn [min_by_value max_by_value].
  destruct (min_from_spec rest kv) as [Hmin_in Hmin].
  destruct (max_from_spec rest kv) as [Hmax_in Hmax].
  destruct (min_from kv rest) as [mn_k mn_v], (max_from kv rest) as [mx_k mx_v].
  cbn [snd] in Hmin, Hmax.
  assert (Hsent : ∀ d,
    outbox (bot w)
      ++ [(SpreadAlert (upper symbol) (upper currency) pct' mn_k mn_v mx_k mx_v
             spread' ((pct' - (2 # 10)) / 100 * avg) (kv :: rest), d)]
    = outbox (bot w)
        ++ [(SpreadAlert sym cur pct min_exchange min_price max_exchange
               max_price spread profit all_prices, ok)] →
    all_prices = kv :: rest
    ∧ (min_exchange, min_price) ∈ kv :: rest
    ∧ (max_exchange, max_price) ∈ kv :: rest
    ∧ (∀ kv0, kv0 ∈ kv :: rest → min_price <= kv0.2 ∧ kv0.2 <= max_price)
    ∧ spread == max_price - min_price
    ∧ spread_threshold config <= pct
    ∧ ∃ avg0, mean (valid_values prices) = Ok avg0 ∧ ¬ avg0 == 0
             ∧ pct == spread / avg0 * 100
             ∧ profit == (pct - (2 # 10)) / 100 * avg0).
  { intros d Hout.
    apply app_inj_tail in Hout as [_ Hout].
    injection Hout as _ _ <- <- <- <- <- <- <- <- _.
    destruct (spread_stats_inv _ _ _ _ Es)
      as (hi & lo & Hhi & Hlo & -> & Hmean & Hne & ->).
    apply Qltb_ge in Ethr.
    assert (Hvals : valid_values prices = (kv :: rest).*2)
      by (now rewrite <- Eitems, valid_items_values).
    assert (Emax : hi == mx_v).
    { apply (is_max_unique (valid_values prices)); [exact Hhi|].
      rewrite Hvals. split.
      - apply list_elem_of_fmap. exists (mx_k, mx_v). auto.
      - intros y Hy. apply list_elem_of_fmap in Hy as (kv0 & -> & Hin). auto. }
    assert (Emin : lo == mn_v).
    { apply (is_min_unique (valid_values prices)); [exact Hlo|].
      rewrite Hvals. split.
      - apply list_elem_of_fmap. exists (mn_k, mn_v). auto.
      - intros y Hy. apply list_elem_of_fmap in Hy as (kv0 & -> & Hin). auto. }
    repeat split; auto.
    - now rewrite Emax, Emin.
    - exists avg. repeat split; auto; reflexivity. }
  destruct (delivery (bot w) (length (outbox (bot w)))); run_monad; apply Hsent.
Qed.

Lemma spread_alert_names_cheapest_and_dearest_witness :
  ("Coinbase"%string, 99800) ∈ valid_items scenario_prices
  ∧ ("Binance"%string, 100200) ∈ valid_items scenario_prices
  ∧ ∀ kv, kv ∈ valid_items scenario_prices → 99800 <= kv.2 ∧ kv.2 <= 100200.
Proof.
  edestruct (spread_alert_names_cheapest_and_dearest scenario_prices
               example_config 1000 "btc" "usd" (fresh_world true))
    as (_ & Hmin & Hmax & Hall & _).
  { reflexivity. }
  split; [exact Hmin|]. split; [exact Hmax | exact Hall].
Defined.

(** ** Reasoning along the monad *)

Lemma ends_in_bind {A B} (m : M A) (f : A → M B) (w : World)
    (Q : result B → World → Prop) :
  ends_in m w (λ r w1, match r with
                       | Ok a => ends_in (f a) w1 Q
                       | Raise e => Q (Raise e) w1
                       end) →
  ends_in (m ≫= f) w Q.
Proof.
  unfold ends_in, mbind, M_bind. destruct (m w) as [[a|e] w1]; auto.
Qed.

Lemma ends_in_mono {A} (m : M A) (w : World) (P Q : result A → World → Prop) :
  ends_in m w P → (∀ r w', P r w' → Q r w') → ends_in m w Q.
Proof. unfold ends_in. auto. Qed.

Lemma alerts_delivered_snoc (l : list (Message * bool)) (mb : Message * bool) :
  alerts_delivered (l ++ [mb])
  = (alerts_delivered l + (if is_delivered_alert mb then 1 else 0))%nat.
Proof.
  unfold alerts_delivered.
  rewrite filter_app, length_app. f_equal.
  rewrite filter_cons, filter_nil.
  destruct (decide (is_delivered_alert mb = true)) as [H|H].
  - rewrite H. reflexivity.
  - destruct (is_delivered_alert mb); [contradiction|reflexivity].
Qed.

(** ** Status updates and alerts do not interfere *)

(** X14.  Status updates and alerts keep separate clocks: no alert rule,
    whatever it does, moves the time of the last status update, and a status
    update, sent or not, leaves the price history and the last-fired time of
    every rule as they were. *)
Theorem status_and_alert_timers_are_independent :
  (∀ r i now w,
     last_status_update (state (run_rule r i now w).2)
     = last_status_update (state w))
  ∧ (∀ prices avg_price spread_pct config now symbol currency w,
       let w' := (send_status_update prices avg_price spread_pct config now
                    symbol currency w).2 in
       price_history (state w') = price_history (state w)
       ∧ ∀ r, last_fired r (state w') = last_fired r (state w)).
Proof.
  split.
  - intros r i now w.
    destruct r; unfold run_rule, check_spread_alert, price_above_rule,
      price_below_rule, check_price_change_alert; explore; reflexivity.
  - intros prices avg_price spread_pct config now symbol currency w.
    cbv zeta. unfold send_status_update.
    explore; (split; [reflexivity | intros []; reflexivity]).
Qed.

(** ** Both threshold alerts in one call *)

(** X15.  When the average lies above the price-above threshold and below
    the price-below threshold, both cooldowns have elapsed and Telegram
    accepts both requests, one call of [check_price_threshold_alerts] sends
    the two alerts, in that order, stamps both rules with the time of the
    call, and still answers with the single flag [True]. *)
Theorem price_band_sends_two_alerts (avg_price : Q) (config : AlertConfig)
    (now : Q) (symbol currency : string) (w : World) (above below : Q) :
  price_above config = Some above → price_below config = Some below →
  ¬ above == 0 → ¬ below == 0 → above < avg_price → avg_price < below →
  cooldown_elapsed PriceAboveRule config now (state w) →
  cooldown_elapsed PriceBelowRule config now (state w) →
  delivery (bot w) (length (outbox (bot w))) = true →
  delivery (bot w) (S (length (outbox (bot w)))) = true →
  let r := check_price_threshold_alerts avg_price config now symbol currency w in
  r.1 = Ok true
  ∧ outbox (bot r.2)
    = outbox (bot w)
        ++ [(PriceAboveAlert (upper symbol) avg_price above, true);
            (PriceBelowAlert (upper symbol) avg_price below, true)]
  ∧ last_price_above_alert (state r.2) = now
  ∧ last_price_below_alert (state r.2) = now
  ∧ alerts_delivered (outbox (bot r.2))
    = (alerts_delivered (outbox (bot w)) + 2)%nat.
Proof.
  intros Ha Hb Hnz Hbz Hlt1 Hlt2 Hc1 Hc2 Hd1 Hd2. cbv zeta.
  unfold cooldown_elapsed in Hc1, Hc2. cbn [last_fired] in Hc1, Hc2.
  apply truthy_nonzero in Hnz, Hbz. apply Qltb_lt in Hlt1, Hlt2.
  apply Qle_bool_iff in Hc1, Hc2.
  unfold check_price_threshold_alerts, price_above_rule, price_below_rule.
  rewrite Ha, Hb, Hnz, Hbz, Hlt1, Hlt2. cbn [andb]. run_monad.
  rewrite Hc1, Hd1. run_monad. rewrite Hc2. run_monad. rewrite length_app. cbn [length].
  rewrite Nat.add_1_r, Hd2. run_monad.
  split; [reflexivity|]. split; [now rewrite <- app_assoc|].
  split; [reflexivity|]. split; [reflexivity|].
  rewrite !alerts_delivered_snoc. cbn. lia.
Qed.

Lemma price_band_sends_two_alerts_witness :
  (check_price_threshold_alerts 150 band_config 1000 "btc" "usd"
     (fresh_world true)).1 = Ok true
  ∧ alerts_delivered
      (outbox (bot (check_price_threshold_alerts 150 band_config 1000 "btc"
                      "usd" (fresh_world true)).2))
    = 2%nat.
Proof.
  destruct (price_band_sends_two_alerts 150 band_config 1000 "btc" "usd"
              (fresh_world true) 100 200 eq_refl eq_refl)
    as (Hres & _ & _ & _ & Hcount).
  - discriminate.
  - discriminate.
  - reflexivity.
  - reflexivity.
  - unfold cooldown_elapsed. cbn. discriminate.
  - unfold cooldown_elapsed. cbn. discriminate.
  - reflexivity.
  - reflexivity.
  - split; [exact Hres | exact Hcount].
Defined.

(** ** The alert counter *)

Ltac count_case :=
  let b := fresh "b" in let Hb := fresh "Hb" in
  intros b Hb; try discriminate Hb; injection Hb as <-;
  rewrite ?alerts_delivered_snoc; unfold is_delivered_alert;
  cbn [rule_of_message fst snd]; lia.

Lemma spread_alert_count (prices : Prices) (config : AlertConfig) (now : Q)
    (symbol currency : string) (w : World) :
  ends_in (check_spread_alert prices config now symbol currency) w
    (λ r w', ∀ b, r = Ok b →
       alerts_delivered (outbox (bot w'))
       = (alerts_delivered (outbox (bot w)) + (if b : bool then 1 else 0))%nat).
Proof.
  unfold ends_in, check_spread_alert. explore; count_case.
Qed.

Lemma change_alert_count (avg_price : Q) (config : AlertConfig) (now : Q)
    (symbol currency : string) (w : World) :
  ends_in (check_price_change_alert avg_price config now symbol currency) w
    (λ r w', ∀ b, r = Ok b →
       alerts_delivered (outbox (bot w'))
       = (alerts_delivered (outbox (bot w)) + (if b : bool then 1 else 0))%nat).
Proof.
  unfold ends_in, check_price_change_alert. explore; count_case.
Qed.

Lemma threshold_alert_count (avg_price : Q) (config : AlertConfig) (now : Q)
    (symbol currency : string) (w : World) :
  ends_in (check_price_threshold_alerts avg_price config now symbol currency) w
    (λ r w', ∀ b, r = Ok b →
       (alerts_delivered (outbox (bot w)) + (if b : bool then 1 else 0)
        ≤ alerts_delivered (outbox (bot w'))
        ≤ alerts_delivered (outbox (bot w)) + (if b then 2 else 0))%nat).
Proof.
  unfold ends_in, check_price_threshold_alerts, price_above_rule,
    price_below_rule.
  explore; count_case.
Qed.

Lemma status_update_count (prices : Prices) (avg_price spread_pct : Q)
    (config : AlertConfig) (now : Q) (symbol currency : string) (w : World) :
  ends_in (send_status_update prices avg_price spread_pct config now symbol
             currency) w
    (λ _ w', alerts_delivered (outbox (bot w'))
             = alerts_delivered (outbox (bot w))).
Proof.
  unfold ends_in, send_status_update.
  explore; rewrite ?alerts_delivered_snoc; unfold is_delivered_alert;
    cbn [rule_of_message fst snd]; lia.
Qed.

Lemma alert_cycle_count (symbol base_currency : string) (config : AlertConfig)
    (c : Cycle) (n : nat) (w : World) :
  ends_in (alert_cycle symbol base_currency config c n) w
    (λ r w', ∀ n', r = Ok n' →
       (n ≤ n'
        ∧ alerts_delivered (outbox (bot w)) + (n' - n)
          ≤ alerts_delivered (outbox (bot w'))
          ≤ alerts_delivered (outbox (bot w)) + 2 * (n' - n))%nat).
Proof.
  unfold alert_cycle. cbv zeta.
  destruct (valid_values (fetched c)) as [|p l].
  { unfold ends_in. run_monad. intros n' [= <-]. lia. }
  apply ends_in_bind. unfold ends_in at 1, lift. cbn [fst snd].
  destruct (monitor_stats (p :: l)) as [[avg_price spread_pct]|e];
    [|discriminate].
  apply ends_in_bind. unfold ends_in at 1, print. cbn [fst snd].
  apply ends_in_bind.
  eapply ends_in_mono; [apply spread_alert_count|].
  intros [a1|e] w1 H1; [specialize (H1 a1 eq_refl)|discriminate].
  cbn [outbox bot] in H1.
  apply ends_in_bind.
  eapply ends_in_mono; [apply threshold_alert_count|].
  intros [a2|e] w2 H2; [specialize (H2 a2 eq_refl)|discriminate].
  apply ends_in_bind.
  eapply ends_in_mono; [apply change_alert_count|].
  intros [a3|e] w3 H3; [specialize (H3 a3 eq_refl)|discriminate].
  apply ends_in_bind.
  eapply ends_in_mono; [apply status_update_count|].
  intros [status|e] w4 H4; [|discriminate].
  unfold count_alert.
  destruct status, a1, a2, a3; unfold ends_in; cbn [negb orb]; run_monad;
    intros n' [= <-]; lia.
Qed.

Lemma alert_loop_count (symbol base_currency : string) (config : AlertConfig)
    (cycles : list Cycle) :
  ∀ (fetch_count n : nat) (w : World),
    ends_in (alert_loop symbol base_currency config cycles fetch_count n) w
      (λ r w', ∀ fetch_count' n', r = Ok (fetch_count', n') →
         (fetch_count' = fetch_count + length cycles
          ∧ n ≤ n'
          ∧ alerts_delivered (outbox (bot w)) + (n' - n)
            ≤ alerts_delivered (outbox (bot w'))
            ≤ alerts_delivered (outbox (bot w)) + 2 * (n' - n))%nat).
Proof.
  induction cycles as [|c rest IH]; intros fetch_count n w;
    cbn [alert_loop length].
  { unfold ends_in. run_monad. intros ? ? [= <- <-]. lia. }
  apply ends_in_bind.
  eapply ends_in_mono; [apply alert_cycle_count|].
  intros [n1|e] w1 H1; [specialize (H1 n1 eq_refl)|discriminate].
  eapply ends_in_mono; [apply IH|].
  intros r w2 H2 fetch_count' n' ->.
  specialize (H2 _ _ eq_refl). lia.
Qed.

(** X16.  A session that ends without an exception has made one fetch per
    cycle and closes with the shutdown message, which reports that number
    and the alert counter.  The counter never overstates: the alerts that
    Telegram accepted during the session are at least as many as the counter
    says and at most twice as many, since a call that delivers both
    threshold alerts is counted once. *)
Theorem alert_total_bounds_delivered_alerts (symbol base_currency : string)
    (config : AlertConfig) (cycles : list Cycle) (w w' : World)
    (fetch_count alerts_sent : nat) :
  run_alert_monitor symbol base_currency config cycles w
  = (Ok (fetch_count, alerts_sent), w') →
  fetch_count = length cycles
  ∧ (∃ ok, last (outbox (bot w'))
           = Some (ShutdownMessage (upper symbol) fetch_count alerts_sent, ok))
  ∧ (alerts_delivered (outbox (bot w)) + alerts_sent
     ≤ alerts_delivered (outbox (bot w'))
     ≤ alerts_delivered (outbox (bot w)) + 2 * alerts_sent)%nat.
Proof.
  unfold run_alert_monitor.
  pose proof (alert_loop_count symbol base_currency config cycles 0 0
                {| state := initial_state;
                   bot := {| delivery := delivery (bot w);
                             outbox := outbox (bot w)
                               ++ [(StartupMessage symbol config,
                                    delivery (bot w) (length (outbox (bot w))))] |};
                   console := console w |}) as Hloop.
  unfold ends_in in Hloop. run_monad.
  destruct (alert_loop _ _ _ _ _ _ _) as [[[fc n]|e] w1]; [|discriminate].
  specialize (Hloop fc n eq_refl). cbn [fst snd outbox bot] in Hloop.
  run_monad. intros [= <- <- <-]. cbn [outbox bot].
  rewrite !alerts_delivered_snoc in *. unfold is_delivered_alert in *.
  cbn [rule_of_message fst snd] in *.
  split; [lia|]. split; [|lia].
  eexists. apply last_snoc.
Qed.

Lemma alert_total_bounds_delivered_alerts_witness :
  (1 ≤ alerts_delivered
         (outbox (bot (run_alert_monitor "btc" "usd" band_config band_session
                         (fresh_world true)).2))
     ≤ 2)%nat.
Proof.
  destruct (alert_total_bounds_delivered_alerts "btc" "usd" band_config
              band_session (fresh_world true)
              (run_alert_monitor "btc" "usd" band_config band_session
                 (fresh_world true)).2 1 1)
    as (_ & _ & Hbounds).
  - vm_compute. reflexivity.
  - exact Hbounds.
Defined.

(** ** The price history over a session *)









